(** * Medical document assistant: the upload/analysis workflow and the
      offline cache worker

    A shallow embedding of the browser client (the application script with
    [uploadFile], [analyzeText], [deleteAllRecords], [uploadToDatabase],
    [saveAnalysisToDatabase], [saveTextAnalysisToDatabase]) and of
    [static/service-worker.js], followed by the properties the specification
    states about them.

    Conventions of the embedding:
    - a JavaScript string is the list of its UTF-16 code units ([text]);
      property names, URLs and user-interface messages are [string]s;
    - a JavaScript object used as a mapping is a [gmap string value];
    - asynchronous functions become computations in a state-and-exception
      monad over [world]; every [await] is sequential in the source, so the
      order of the effects is the order of the binds;
    - the remote services are part of the world; what each remote call
      answers is given by an environment ([env]), one answer per call site;
    - [console.log] and friends are not modelled. *)

From Stdlib Require Import ZArith NArith Ascii String List Bool Lia.
From stdpp Require Import base option list gmap strings pretty.

Local Open Scope string_scope.
Local Open Scope Z_scope.

(** ** JavaScript strings and values *)

Module JS.

(** UTF-16 code units. *)
Definition text := list N.

Definition lit (s : string) : text :=
  List.map N_of_ascii (list_ascii_of_string s).

(** [String(n)] for an integer [n]. *)
Definition decimal (n : Z) : text := lit (pretty n).

(** [s.length] *)
Definition len (s : text) : Z := Z.of_nat (length s).

(** White space and line terminators removed by [String.prototype.trim]. *)
Definition is_space (c : N) : bool :=
  ((9 <=? c) && (c <=? 13) || (c =? 32) || (c =? 160) || (c =? 5760)
   || (8192 <=? c) && (c <=? 8202) || (c =? 8232) || (c =? 8233)
   || (c =? 8239) || (c =? 8287) || (c =? 12288) || (c =? 65279))%N.

Fixpoint trimStart (s : text) : text :=
  match s with
  | [] => []
  | c :: r => if is_space c then trimStart r else s
  end.

Definition trimEnd (s : text) : text := rev (trimStart (rev s)).

Definition trim (s : text) : text := trimEnd (trimStart s).

(** [s.substring(0, n)] for a non-negative constant [n]. *)
Definition substring0 (n : nat) (s : text) : text := take n s.

(** [s.split(sep)] for a one-character separator. *)
Fixpoint split (sep : N) (s : text) : list text :=
  match s with
  | [] => [[]]
  | c :: r =>
      if (c =? sep)%N then [] :: split sep r
      else match split sep r with
           | h :: t => (c :: h) :: t
           | [] => [[c]]
           end
  end.

(** [new Blob([s]).size]: the length of the UTF-8 encoding of [s], a lone
    surrogate being encoded as U+FFFD. *)
Definition is_high (c : N) : bool := ((55296 <=? c) && (c <=? 56319))%N.
Definition is_low (c : N) : bool := ((56320 <=? c) && (c <=? 57343))%N.

Fixpoint utf8_size (s : text) : Z :=
  match s with
  | [] => 0
  | c :: r =>
      if (c <? 128)%N then 1 + utf8_size r
      else if (c <? 2048)%N then 2 + utf8_size r
      else if is_high c then
        match r with
        | d :: r' => if is_low d then 4 + utf8_size r' else 3 + utf8_size r
        | [] => 3
        end
      else 3 + utf8_size r
  end.

(** Primitive values. Numbers are the integers the program handles (sizes,
    lengths, identifiers); objects nested in a payload are not modelled. *)
Inductive value :=
| VUndefined
| VNull
| VBool (b : bool)
| VNum (n : Z)
| VStr (s : text).

Global Instance value_eq_dec : EqDecision value.
Proof. solve_decision. Defined.

(** ToBoolean *)
Definition truthy (v : value) : bool :=
  match v with
  | VUndefined | VNull => false
  | VBool b => b
  | VNum n => negb (n =? 0)
  | VStr s => match s with [] => false | _ => true end
  end.

(** [a || b] *)
Definition or_else (a b : value) : value := if truthy a then a else b.

(** [v.length]: defined on strings only. *)
Definition length_of (v : value) : value :=
  match v with
  | VStr s => VNum (len s)
  | _ => VUndefined
  end.

(** An object used as a mapping from property names to values. *)
Abbreviation object := (gmap string value).

(** [o.k]: a missing property reads as [undefined]. *)
Definition get (o : object) (k : string) : value := default VUndefined (o !! k).

End JS.

Import JS.

(** ** The remote store, the page and the world *)

Module Workflow.

(** A [File] of the file input. *)
Record file := File {
  name : text;
  size : Z;
  type : text;
}.

(** The hosted backend: one storage bucket ([medical-documents]) and the two
    tables. A table is the list of its rows, oldest first; a row is an object
    whose [id] the server chose. *)
Record store := Store {
  bucket : gmap text file;
  documents : list object;
  analyses : list object;
}.

(** The [type] argument of [showToast]: ['success'], ['error'], ['info']. *)
Inductive toast_kind := Success | Error | Info.

(** What one invocation does to the outside, in order. *)
Inductive event :=
| StorageUpload (path : text) (f : file)
| StorageRemove (path : value)
| DocumentsInsert (row : object)
| DocumentsDelete (id : value)
| AnalysesInsert (row : object)
| AnalysesDelete (id : value)
| ApiUpload (f : file)
| ApiText (body : text)
| Delay (ms : Z)
| ShowToast (message : value) (kind : toast_kind)
| ShowLoading
| HideLoading
| ShowResults (data : object)
| ClearFile.

(** Calls that leave the browser. *)
Definition is_network (e : event) : bool :=
  match e with
  | StorageUpload _ _ | StorageRemove _ | DocumentsInsert _ | DocumentsDelete _
  | AnalysesInsert _ | AnalysesDelete _ | ApiUpload _ | ApiText _ => true
  | _ => false
  end.

(** Calls to the analysis API. *)
Definition is_api (e : event) : bool :=
  match e with
  | ApiUpload _ | ApiText _ => true
  | _ => false
  end.

(** Deletion calls to the remote store. *)
Definition is_deletion (e : event) : bool :=
  match e with
  | StorageRemove _ | DocumentsDelete _ | AnalysesDelete _ => true
  | _ => false
  end.

(** The globals of the script, the DOM elements the operations look up (the
    file input with its files, the text area with its value, the result
    modal), the remote store, and the trace of effects. [result] is the
    object that [response.json()] allocated: [uploadFile], [analyzeText] and
    the [analysisData] parameter of the save functions all alias it. *)
Record world := World {
  supabaseInitialized : bool;
  supabaseClient : bool;
  currentFile : option file;
  currentAnalysisData : option object;
  fileInput : option (list file);
  medicalText : option text;
  resultModal : bool;
  remote : store;
  result : object;
  trace : list event;
}.

(** The answer of a call of the store client: the promise rejects, or it
    resolves to [{error}] or to [{data}]. *)
Inductive reply (A : Type) :=
| Rejected (message : text)
| Failed (message : text)
| Succeeded (data : A).
Arguments Rejected {A} message.
Arguments Failed {A} message.
Arguments Succeeded {A} data.

(** The answer of [fetch] followed by [response.json()]: [fetch] rejects, or
    it resolves to a response with its [ok] flag whose body parses to an
    object (the API answers with JSON objects) or makes [json()] reject. *)
Inductive api_reply :=
| NetworkError (message : text)
| Responded (ok : bool) (body : text + object).

(** One answer per remote call site, and the values read from the clock.
    An insert answers with the [id] of the row it returns, or with no row. *)
Record env := Env {
  date_now : Z;
  date_iso : text;
  getPublicUrl : text -> text;
  JSON_stringify : object -> text;
  storage_upload : reply unit;
  documents_insert : reply (option value);
  api_upload : api_reply;
  api_text : api_reply;
  analyses_insert : reply (option value);
  storage_remove : reply unit;
  analyses_delete : reply unit;
  documents_delete : reply unit;
}.

(** *** The state-and-exception monad of the asynchronous functions *)

Inductive outcome (A : Type) :=
| Return (a : A)
| Throw (message : text).
Arguments Return {A} a.
Arguments Throw {A} message.

Definition M (A : Type) : Type := world -> outcome A * world.

#[global] Instance M_ret : MRet M := fun A a w => (Return a, w).

#[global] Instance M_bind : MBind M := fun A B k m w =>
  match m w with
  | (Return a, w') => k a w'
  | (Throw e, w') => (Throw e, w')
  end.

Definition throw {A} (message : text) : M A := fun w => (Throw message, w).

(** [try { body } catch (e) { handler(e) }] *)
Definition try_catch {A} (body : M A) (handler : text -> M A) : M A := fun w =>
  match body w with
  | (Return a, w') => (Return a, w')
  | (Throw e, w') => handler e w'
  end.

Definition gets {A} (f : world -> A) : M A := fun w => (Return (f w), w).

Definition modify (f : world -> world) : M unit := fun w => (Return tt, f w).

Definition set_remote (s : store) (w : world) : world :=
  World (supabaseInitialized w) (supabaseClient w) (currentFile w)
    (currentAnalysisData w) (fileInput w) (medicalText w) (resultModal w) s (result w) (trace w).

Definition set_result (o : object) (w : world) : world :=
  World (supabaseInitialized w) (supabaseClient w) (currentFile w)
    (currentAnalysisData w) (fileInput w) (medicalText w) (resultModal w) (remote w) o (trace w).

Definition set_trace (t : list event) (w : world) : world :=
  World (supabaseInitialized w) (supabaseClient w) (currentFile w)
    (currentAnalysisData w) (fileInput w) (medicalText w) (resultModal w) (remote w) (result w) t.

Definition set_currentAnalysisData (d : option object) (w : world) : world :=
  World (supabaseInitialized w) (supabaseClient w) (currentFile w)
    d (fileInput w) (medicalText w) (resultModal w) (remote w) (result w) (trace w).

Definition set_file (cur : option file) (inp : option (list file)) (w : world) : world :=
  World (supabaseInitialized w) (supabaseClient w) cur
    (currentAnalysisData w) inp (medicalText w) (resultModal w) (remote w) (result w) (trace w).

Definition emit (e : event) : M unit := modify (fun w => set_trace (trace w ++ [e]) w).

(** [result.k = v] and [delete result.k] on the shared payload object. *)
Definition result_set (k : string) (v : value) : M unit :=
  modify (fun w => set_result (<[k := v]> (result w)) w).

Definition result_delete (k : string) : M unit :=
  modify (fun w => set_result (delete k (result w)) w).

(** *** The remote store as the client sees it

    A call is recorded in the trace, then answered as the environment says.
    The store is atomic and honest: it changes exactly when the call is
    answered with [Succeeded] (an insert that returns no row inserted none).
    A rejected promise throws at the [await]; [{error}] and [{data}] come
    back to the caller. *)

Definition answered {A B} (r : reply A) (effect : A -> store -> store) (data : A -> B)
  : M (text + B) :=
  match r with
  | Rejected e => throw e
  | Failed e => mret (inl e)
  | Succeeded a => modify (fun w => set_remote (effect a (remote w)) w);; mret (inr (data a))
  end.

Definition put_object (path : text) (f : file) (s : store) : store :=
  Store (<[path := f]> (bucket s)) (documents s) (analyses s).

Definition remove_object (path : value) (s : store) : store :=
  match path with
  | VStr p => Store (delete p (bucket s)) (documents s) (analyses s)
  | _ => s
  end.

Definition with_id (row : object) (id : option value) : list object :=
  match id with
  | Some i => [<["id" := i]> row]
  | None => []
  end.

Definition insert_document (row : object) (id : option value) (s : store) : store :=
  Store (bucket s) (documents s ++ with_id row id) (analyses s).

Definition insert_analysis (row : object) (id : option value) (s : store) : store :=
  Store (bucket s) (documents s) (analyses s ++ with_id row id).

(** [delete().eq('id', id)] *)
Definition delete_rows (id : value) (rows : list object) : list object :=
  filter (fun row => get row "id" <> id) rows.

Definition delete_document (id : value) (s : store) : store :=
  Store (bucket s) (delete_rows id (documents s)) (analyses s).

Definition delete_analysis (id : value) (s : store) : store :=
  Store (bucket s) (documents s) (delete_rows id (analyses s)).

Section Client.

Variable E : env.

(** [supabaseClient.storage.from('medical-documents').upload(path, file, ...)] *)
Definition storage_from_upload (path : text) (f : file) : M (text + unit) :=
  emit (StorageUpload path f);;
  answered (storage_upload E) (fun _ => put_object path f) (fun x => x).

(** [supabaseClient.storage.from('medical-documents').remove([path])] *)
Definition storage_from_remove (path : value) : M (text + unit) :=
  emit (StorageRemove path);;
  answered (storage_remove E) (fun _ => remove_object path) (fun x => x).

(** [supabaseClient.from('documents').insert([row]).select()] *)
Definition from_documents_insert (row : object) : M (text + list object) :=
  emit (DocumentsInsert row);;
  answered (documents_insert E) (insert_document row) (with_id row).

(** [supabaseClient.from('analyses').insert([row]).select()] *)
Definition from_analyses_insert (row : object) : M (text + list object) :=
  emit (AnalysesInsert row);;
  answered (analyses_insert E) (insert_analysis row) (with_id row).

(** [supabaseClient.from('documents').delete().eq('id', id)] *)
Definition from_documents_delete (id : value) : M (text + unit) :=
  emit (DocumentsDelete id);;
  answered (documents_delete E) (fun _ => delete_document id) (fun x => x).

(** [supabaseClient.from('analyses').delete().eq('id', id)] *)
Definition from_analyses_delete (id : value) : M (text + unit) :=
  emit (AnalysesDelete id);;
  answered (analyses_delete E) (fun _ => delete_analysis id) (fun x => x).

(** [fetch(url, ...)] then [response.json()], which stores the parsed payload
    in [result]; returns [response.ok]. *)
Definition api (call : event) (r : api_reply) : M bool :=
  emit call;;
  match r with
  | NetworkError e => throw e
  | Responded ok (inl e) => throw e
  | Responded ok (inr o) => modify (set_result o);; mret ok
  end.

(** *** The application script *)

Definition showToast (message : value) (kind : toast_kind) : M unit :=
  emit (ShowToast message kind).

Definition showLoading : M unit := emit ShowLoading.

Definition hideLoading : M unit := emit HideLoading.

(** [showResults(result)]: returns at once when the modal is missing, else
    keeps the data for printing and renders it. *)
Definition showResults : M unit :=
  modal ← gets resultModal;
  if negb modal then mret tt
  else
    data ← gets result;
    modify (set_currentAnalysisData (Some data));;
    emit (ShowResults data).

(** [clearFile()]: empties the file input when there is one, forgets the
    current file. *)
Definition clearFile : M unit :=
  modify (fun w => set_file None (fmap (fun _ => []) (fileInput w)) w);;
  emit ClearFile.

(** [delay(ms)] *)
Definition delay (ms : Z) : M unit := emit (Delay ms).

(** [if (!supabaseInitialized || !supabaseClient) throw new Error(...)] *)
Definition require_client : M unit :=
  initialized ← gets supabaseInitialized;
  client ← gets supabaseClient;
  if negb initialized || negb client then throw (lit "Supabase not initialized")
  else mret tt.

Record results := Results {
  storage : bool;
  documents_deleted : bool;
  analyses_deleted : bool;
}.

(** [deleteAllRecords(fileId, analysisId, storagePath)]. The field
    [documents] of the result set is [documents_deleted] here, [analyses] is
    [analyses_deleted]. The outer [try]/[catch] rethrows and is the identity. *)
Definition deleteAllRecords (fileId analysisId storagePath : value) : M results :=
  require_client;;
  (* 1. Delete from storage first (if path exists) *)
  storage_ok ←
    (if truthy storagePath then
       try_catch
         (r ← storage_from_remove storagePath;
          mret (match r with inl storageError => false | inr _ => true end))
         (fun storageError => mret false)
     else mret false);
  (* 2. Delete from analyses table *)
  analyses_ok ←
    (if truthy analysisId then
       try_catch
         (r ← from_analyses_delete analysisId;
          mret (match r with inl analysisError => false | inr _ => true end))
         (fun analysisError => mret false)
     else mret false);
  (* 3. Delete from documents table *)
  documents_ok ←
    (if truthy fileId then
       try_catch
         (r ← from_documents_delete fileId;
          mret (match r with inl documentError => false | inr _ => true end))
         (fun documentError => mret false)
     else mret false);
  mret (Results storage_ok documents_ok analyses_ok).

(** The pieces of the storage path. *)
Definition dot : N := 46.
Definition slash : N := 47.
Definition underscore : N := 95.

(** [name.split('.').pop() || 'bin'] *)
Definition fileExt (name : text) : text :=
  match default [] (last (split dot name)) with
  | [] => lit "bin"
  | ext => ext
  end.

(** [name.replace(/\.[^/.]+$/, '')]: the match can only start at the last
    dot, and only when what follows is not empty and has no slash. *)
Definition fileNameWithoutExt (name : text) : text :=
  match split dot name with
  | [] | [_] => name
  | segments =>
      let ext := default [] (last segments) in
      if negb (bool_decide (ext = [])) && forallb (fun c => negb (c =? slash)%N) ext
      then take (length name - S (length ext)) name
      else name
  end.

Definition is_alnum (c : N) : bool :=
  ((48 <=? c) && (c <=? 57) || (65 <=? c) && (c <=? 90) || (97 <=? c) && (c <=? 122))%N.

Definition toLower (c : N) : N :=
  if ((65 <=? c) && (c <=? 90))%N then (c + 32)%N else c.

(** [s.replace(/[^a-z0-9]/gi, '_').toLowerCase()]: without the [u] flag a
    code unit above 127 never matches an ASCII letter, and after the
    replacement only ASCII letters are left to lower. *)
Definition safeFileName (s : text) : text :=
  List.map (fun c => toLower (if is_alnum c then c else underscore)) s.

Definition filePath (timestamp : Z) (name : text) : text :=
  (lit "uploads/" ++ decimal timestamp ++ lit "-"
    ++ safeFileName (fileNameWithoutExt name) ++ lit "." ++ fileExt name)%list.

Record db_result := DbResult {
  id : value;
  url : text;
  path : text;
}.

(** The row [uploadToDatabase] inserts into [documents]. *)
Definition documentData (f : file) (filePath publicUrl : text) : object :=
  <["filename" := VStr (name f)]>
  (<["file_size" := VNum (size f)]>
  (<["file_type" := VStr (match type f with
                          | [] => lit "application/octet-stream"
                          | t => t
                          end)]>
  (<["file_url" := VStr publicUrl]>
  (<["storage_path" := VStr filePath]>
  (<["uploaded_at" := VStr (date_iso E)]> ∅))))).

(** [uploadToDatabase(file)]; its [try]/[catch] rethrows. *)
Definition uploadToDatabase (f : file) : M db_result :=
  require_client;;
  let filePath := filePath (date_now E) (name f) in
  r ← storage_from_upload filePath f;
  match r with
  | inl uploadError => throw uploadError
  | inr _ =>
      let publicUrl := getPublicUrl E filePath in
      r ← from_documents_insert (documentData f filePath publicUrl);
      match r with
      | inl dbError => throw dbError
      | inr [] => throw (lit "No data returned from documents insert")
      | inr (row :: _) => mret (DbResult (get row "id") publicUrl filePath)
      end
  end.

(** The analysis text: the first truthy of [analysis], [ai_analysis] and
    [text], else the payload as JSON. *)
Definition analysisText (analysisData : object) : value :=
  if truthy (get analysisData "analysis") then get analysisData "analysis"
  else if truthy (get analysisData "ai_analysis") then get analysisData "ai_analysis"
  else if truthy (get analysisData "text") then get analysisData "text"
  else VStr (JSON_stringify E analysisData).

(** The row [saveAnalysisToDatabase] inserts into [analyses]. *)
Definition insertData (analysisData : object) (fileId : value) : object :=
  <["document_id" := fileId]>
  (<["filename" := or_else (get analysisData "filename") (VStr (lit "Document Analysis"))]>
  (<["file_size" := or_else (get analysisData "file_size") (VNum 0)]>
  (<["text_length" := or_else (get analysisData "text_length")
                        (length_of (analysisText analysisData))]>
  (<["analysis" := analysisText analysisData]>
  (<["analysis_type" := VStr (if truthy fileId then lit "document" else lit "text")]>
  (<["created_at" := VStr (date_iso E)]> ∅)))))).

(** [saveAnalysisToDatabase(analysisData, fileId)], [analysisData] being the
    shared payload [result]; its [try]/[catch] rethrows. *)
Definition saveAnalysisToDatabase (fileId : value) : M object :=
  require_client;;
  analysisData ← gets result;
  r ← from_analyses_insert (insertData analysisData fileId);
  match r with
  | inl error => throw error
  | inr [] => throw (lit "No data returned from analyses insert")
  | inr (row :: _) => mret row
  end.

(** The row [saveTextAnalysisToDatabase] inserts into [documents]. *)
Definition textDocument (originalText : text) : object :=
  <["filename" := VStr (lit "text-input-" ++ decimal (date_now E) ++ lit ".txt")%list]>
  (<["file_size" := VNum (utf8_size originalText)]>
  (<["file_type" := VStr (lit "text/plain")]>
  (<["text_content" := VStr originalText]>
  (<["uploaded_at" := VStr (date_iso E)]> ∅)))).

(** [saveTextAnalysisToDatabase(analysisData, originalText)], [analysisData]
    being the shared payload [result]; its [try]/[catch] rethrows. *)
Definition saveTextAnalysisToDatabase (originalText : text) : M object :=
  require_client;;
  r ← from_documents_insert (textDocument originalText);
  match r with
  | inl docError => throw docError
  | inr [] => throw (lit "No data returned from documents insert")
  | inr (textDoc :: _) =>
      result_set "filename" (get textDoc "filename");;
      result_set "file_size" (get textDoc "file_size");;
      result_set "text_length" (VNum (len originalText));;
      saveAnalysisToDatabase (get textDoc "id")
  end.

(** The items of the clean-up summary, in the order the source pushes them. *)
Definition deletedItems (r : results) : list text :=
  ((if storage r then [lit "File"] else [])
   ++ (if documents_deleted r then [lit "Document record"] else [])
   ++ (if analyses_deleted r then [lit "Analysis record"] else []))%list.

(** [uploadFile()], the analyze-by-file operation. The first file of a
    non-empty file list is never falsy, so the [No file selected] branch is
    left out. *)
Definition uploadFile : M unit :=
  input ← gets fileInput;
  match input with
  | None | Some [] => showToast (VStr (lit "Please select a file first")) Error
  | Some (f :: _) =>
      if size f >? 10 * 1024 * 1024
      then showToast (VStr (lit "File too large. Maximum size is 10MB.")) Error
      else
        showLoading;;
        (* Step 1: upload to the database if available *)
        initialized ← gets supabaseInitialized;
        '(fileUrl, dbFileId, storagePath) ←
          (if initialized : bool then
             try_catch
               (dbResult ← uploadToDatabase f;
                mret (VStr (url dbResult), id dbResult, VStr (path dbResult)))
               (fun message =>
                  showToast (VStr (lit "Database upload failed: " ++ message)%list) Error;;
                  mret (VNull, VNull, VNull))
           else mret (VNull, VNull, VNull));
        (* Step 2: process the file *)
        try_catch
          (ok ← api (ApiUpload f) (api_upload E);
           if ok : bool then
             (if truthy dbFileId then
                result_set "db_file_id" dbFileId;;
                result_set "file_url" fileUrl;;
                result_set "storage_path" storagePath
              else mret tt);;
             initialized ← gets supabaseInitialized;
             (if (initialized : bool) && truthy dbFileId then
                try_catch
                  (savedAnalysis ← saveAnalysisToDatabase dbFileId;
                   result_set "analysis_db_id" (get savedAnalysis "id");;
                   let analysisDbId := get savedAnalysis "id" in
                   delay 1000;;
                   deleteResults ← deleteAllRecords dbFileId analysisDbId storagePath;
                   (match deletedItems deleteResults with
                    | [] => mret tt
                    | items =>
                        showToast
                          (VStr (lit "Analysis complete - " ++ decimal (Z.of_nat (length items))
                                   ++ lit " items cleaned up")%list) Success
                    end);;
                   result_delete "db_file_id";;
                   result_delete "analysis_db_id";;
                   result_delete "file_url";;
                   result_delete "storage_path")
                  (fun message =>
                     showToast (VStr (lit "Analysis save failed: " ++ message)%list) Error)
              else mret tt);;
             showResults;;
             hideLoading;;
             clearFile
           else
             hideLoading;;
             payload ← gets result;
             showToast (or_else (get payload "error") (VStr (lit "Upload failed"))) Error)
          (fun message =>
             hideLoading;;
             showToast (VStr (lit "Network error: " ++ message)%list) Error)
  end.

(** [analyzeText()], the analyze-by-text operation. *)
Definition analyzeText : M unit :=
  textArea ← gets medicalText;
  match textArea with
  | None => showToast (VStr (lit "Text area not found")) Error
  | Some entered =>
      match trim entered with
      | [] => showToast (VStr (lit "Please enter some medical text")) Error
      | text =>
          showLoading;;
          try_catch
            (ok ← api (ApiText (substring0 3000 text)) (api_text E);
             if ok : bool then
               initialized ← gets supabaseInitialized;
               (if initialized : bool then
                  try_catch
                    (savedAnalysis ← saveTextAnalysisToDatabase text;
                     result_set "analysis_db_id" (get savedAnalysis "id");;
                     delay 1000;;
                     (if truthy (get savedAnalysis "document_id") then
                        from_analyses_delete (get savedAnalysis "id");;
                        from_documents_delete (get savedAnalysis "document_id");;
                        showToast (VStr (lit "Analysis complete - records cleaned up")) Success
                      else mret tt);;
                     result_delete "analysis_db_id")
                    (fun message =>
                       showToast (VStr (lit "Text analysis save failed: " ++ message)%list) Error)
                else mret tt);;
               showResults;;
               hideLoading
             else
               hideLoading;;
               payload ← gets result;
               showToast (or_else (get payload "error") (VStr (lit "Analysis failed"))) Error)
            (fun message =>
               hideLoading;;
               showToast (VStr (lit "Network error: " ++ message)%list) Error)
      end
  end.

End Client.

(** One invocation of an operation: it starts with an empty trace, so the
    trace of the world it ends in ([effects]) is what the invocation did. *)
Definition invoke {A} (m : M A) (w : world) : outcome A * world := m (set_trace [] w).

Definition after {A} (m : M A) (w : world) : world := (invoke m w).2.

Definition effects {A} (m : M A) (w : world) : list event := trace (after m w).

(** Whether a call of the store client was answered with [{data}]. *)
Definition succeeded {A} (r : reply A) : bool :=
  match r with
  | Succeeded _ => true
  | _ => false
  end.

End Workflow.

(** ** The offline cache worker ([static/service-worker.js]) *)

Module ServiceWorker.

Definition CACHE_NAME : string := "meddoc-ai-v1".

Inductive request_mode := Navigate | SameOrigin | NoCors | Cors.

(** A request: its absolute URL and its mode. *)
Record request := Request {
  url : string;
  mode : request_mode;
}.

Inductive response_type := Basic | CorsResponse | Opaque | OpaqueRedirect | NetworkFailure.

Record response := Response {
  status : Z;
  type : response_type;
  body : text;
}.

#[global] Instance response_type_eq_dec : EqDecision response_type.
Proof. solve_decision. Defined.

(** [CacheStorage]: the named caches in creation order, each a map from URL
    to the stored response. *)
Abbreviation cache := (gmap string response).
Definition cache_storage := list (string * cache).

(** [caches.match(url)]: the first cache that holds the URL answers. *)
Fixpoint caches_match (caches : cache_storage) (u : string) : option response :=
  match caches with
  | [] => None
  | (_, c) :: rest =>
      match c !! u with
      | Some r => Some r
      | None => caches_match rest u
      end
  end.

(** [caches.open(name).then(cache => cache.put(url, r))]: [open] creates the
    cache when there is none of that name. *)
Fixpoint caches_put (name u : string) (r : response) (caches : cache_storage)
  : cache_storage :=
  match caches with
  | [] => [(name, {[u := r]})]
  | (n, c) :: rest =>
      if String.eqb n name then (n, <[u := r]> c) :: rest
      else (n, c) :: caches_put name u r rest
  end.

(** The cache of a given name, empty when there is none. *)
Fixpoint caches_open (name : string) (caches : cache_storage) : cache :=
  match caches with
  | [] => ∅
  | (n, c) :: rest => if String.eqb n name then c else caches_open name rest
  end.

(** [haystack.includes(needle)] *)
Fixpoint includes (needle haystack : string) : bool :=
  String.prefix needle haystack
  || match haystack with
     | EmptyString => false
     | String _ rest => includes needle rest
     end.

(** The worker's world: its caches and the requests it sent to the network. *)
Record sw_state := SwState {
  caches : cache_storage;
  fetched : list string;
}.

Section Worker.

(** The network: [None] when [fetch] rejects. *)
Variable network : string -> option response.

(** The absolute URL of the scope's root, what ['/'] resolves to. *)
Variable root : string.

(** The promise given to [event.respondWith]: the response it resolves to,
    or [None] when it rejects or resolves to [undefined] (the page then gets
    a network error). *)
Definition promise := sw_state -> option response * sw_state.

(** [fetch(event.request)] *)
Definition fetch (req : request) (s : sw_state) : option response * sw_state :=
  (network (url req), SwState (caches s) (fetched s ++ [url req])).

(** The first [fetch] listener: network-first for API calls, cache-first for
    the rest. It calls [respondWith] on every request. *)
Definition routing_listener (req : request) : option promise :=
  if includes "/api/" (url req) then
    Some (fun s =>
      match fetch req s with
      | (Some r, s') => (Some r, s')
      | (None, s') => (caches_match (caches s') (url req), s')
      end)
  else
    Some (fun s =>
      match caches_match (caches s) (url req) with
      | Some r => (Some r, s)
      | None =>
          match fetch req s with
          | (None, s') => (None, s')
          | (Some r, s') =>
              (* [!response] never holds of the response [fetch] resolved to *)
              if negb (status r =? 200) || negb (bool_decide (type r = Basic))
              then (Some r, s')
              else (Some r,
                    SwState (caches_put CACHE_NAME (url req) r (caches s')) (fetched s'))
          end
      end).

(** The second [fetch] listener: the offline fallback for navigations. It
    calls [respondWith] on navigation requests only. *)
Definition navigation_listener (req : request) : option promise :=
  match mode req with
  | Navigate =>
      Some (fun s =>
        match fetch req s with
        | (Some r, s') => (Some r, s')
        | (None, s') => (caches_match (caches s') root, s')
        end)
  | _ => None
  end.

(** The listeners in the order the script registers them. *)
Definition fetch_listeners : list (request -> option promise) :=
  [routing_listener; navigation_listener].

(** Dispatch of a [fetch] event. Listeners run in registration order;
    [respondWith] sets the event's stop-immediate-propagation flag, so the
    first listener that calls it settles the response and the later ones are
    not run (and a second [respondWith] would throw [InvalidStateError]). *)
Fixpoint dispatch (listeners : list (request -> option promise)) (req : request)
  : option promise :=
  match listeners with
  | [] => None
  | l :: rest =>
      match l req with
      | Some p => Some p
      | None => dispatch rest req
      end
  end.

(** What the page receives for a request, and the worker's state after; with
    no [respondWith] the browser fetches the request itself. *)
Definition serve (req : request) (s : sw_state) : option response * sw_state :=
  match dispatch fetch_listeners req with
  | Some p => p s
  | None => fetch req s
  end.

End Worker.

End ServiceWorker.

(** ** The life cycle of the cache worker ([static/service-worker.js]) *)

Module Lifecycle.
Import ServiceWorker.

Definition urlsToCache : list string :=
  ["/";
   "/static/manifest.json";
   "/static/css/apple-style.css";
   "/static/icons/icon-72.png";
   "/static/icons/icon-96.png";
   "/static/icons/icon-128.png";
   "/static/icons/icon-144.png";
   "/static/icons/icon-152.png";
   "/static/icons/icon-167.png";
   "/static/icons/icon-180.png";
   "/static/icons/icon-192.png";
   "/static/icons/icon-384.png";
   "/static/icons/icon-512.png";
   "https://cdnjs.cloudflare.com/ajax/libs/font-awesome/6.4.0/css/all.min.css";
   "https://fonts.googleapis.com/css2?family=Inter:wght@300;400;500;600;700&display=swap";
   "https://cdn.jsdelivr.net/npm/@supabase/supabase-js@2"].

(** The URL of a request made from a string: a path is resolved against the
    origin of the worker, an absolute URL is taken as it is. *)
Definition resolve (origin u : string) : string :=
  if String.prefix "/" u then origin ++ u else u.

(** [caches.keys()] *)
Definition caches_keys (caches : cache_storage) : list string := List.map fst caches.

(** [caches.has(name)] *)
Definition caches_has (name : string) (caches : cache_storage) : bool :=
  existsb (String.eqb name) (caches_keys caches).

(** [caches.open(name)] as an effect: the cache is created, empty and last,
    when there is none of that name. *)
Definition caches_create (name : string) (caches : cache_storage) : cache_storage :=
  if caches_has name caches then caches else (caches ++ [(name, ∅)])%list.

(** [caches.delete(name)] *)
Definition caches_delete (name : string) (caches : cache_storage) : cache_storage :=
  List.filter (fun entry => negb (String.eqb entry.1 name)) caches.

(** [response.ok] *)
Definition ok (r : response) : bool := (200 <=? status r) && (status r <=? 299).

Section Worker.

Variable network : string -> option response.

(** The origin of the worker's script, without a final slash. *)
Variable origin : string.

(** What [cache.addAll] keeps of one URL: the response, unless the fetch
    rejects, the status is not OK or is 206. (Responses carry no [Vary]
    header here.) *)
Definition fetched_entry (u : string) : option (string * response) :=
  match network u with
  | Some r => if ok r && negb (status r =? 206) then Some (u, r) else None
  | None => None
  end.

(** [cache.addAll(urls)] on the cache [name]: every URL is requested; the
    responses are stored together, and none is when one request fails.
    The boolean tells whether the promise is fulfilled. *)
Definition addAll (name : string) (urls : list string) (s : sw_state) : bool * sw_state :=
  let requested := (fetched s ++ urls)%list in
  match mapM fetched_entry urls with
  | Some entries =>
      (true,
       SwState (foldl (fun caches entry => caches_put name entry.1 entry.2 caches)
                  (caches s) entries)
               requested)
  | None => (false, SwState (caches s) requested)
  end.

(** The [install] listener: the promise given to [event.waitUntil]. When it
    is fulfilled the worker is installed and [skipWaiting] has been called;
    when it rejects the installation fails. ([skipWaiting] and
    [clients.claim] change which worker controls the pages, not the
    caches.) *)
Definition install (s : sw_state) : bool * sw_state :=
  addAll CACHE_NAME (List.map (resolve origin) urlsToCache)
    (SwState (caches_create CACHE_NAME (caches s)) (fetched s)).

(** The [activate] listener: every cache listed by [caches.keys()] whose
    name is not [CACHE_NAME] is deleted. *)
Definition activate (s : sw_state) : sw_state :=
  SwState
    (foldl (fun caches cacheName =>
              if negb (String.eqb cacheName CACHE_NAME)
              then caches_delete cacheName caches
              else caches)
       (caches s) (caches_keys (caches s)))
    (fetched s).

End Worker.

End Lifecycle.

(** ** The start of the page: the store client, the status indicator and
    the theme *)

Module Startup.
Import Workflow.

(** [haystack.includes(needle)] on JavaScript strings. *)
Fixpoint startsWith (needle haystack : text) : bool :=
  match needle, haystack with
  | [], _ => true
  | _ :: _, [] => false
  | a :: needle', b :: haystack' => (a =? b)%N && startsWith needle' haystack'
  end.

Fixpoint includes (needle haystack : text) : bool :=
  startsWith needle haystack
  || match haystack with
     | [] => false
     | _ :: rest => includes needle rest
     end.

(** An element with its class list (a list without duplicates, in the order
    of insertion) and its [style.display]. *)
Record element := Element {
  classList : list string;
  display : string;
}.

(** [classList.add(token)] *)
Definition classList_add (token : string) (l : list string) : list string :=
  if existsb (String.eqb token) l then l else (l ++ [token])%list.

(** [classList.remove(...tokens)] *)
Definition classList_remove (tokens : list string) (l : list string) : list string :=
  List.filter (fun c => negb (existsb (String.eqb c) tokens)) l.

(** The two elements of the status indicator, when the page has them:
    [#dbStatusIndicator], and [#dbStatusText] with its text. *)
Record dom := Dom {
  dbStatusIndicator : option element;
  dbStatusText : option text;
}.

(** [message || fallback] on strings *)
Definition or_text (message fallback : text) : text :=
  match message with
  | [] => fallback
  | _ => message
  end.

(** [updateDatabaseStatus(status, message)] *)
Definition updateDatabaseStatus (status : string) (message : text) (d : dom) : dom :=
  match dbStatusIndicator d, dbStatusText d with
  | Some dbIndicator, Some dbStatusText =>
      let removed :=
        classList_remove ["connected"; "error"; "disabled"; "connecting"]
          (classList dbIndicator) in
      if String.eqb status "connected" then
        Dom (Some (Element (classList_add "connected" removed) "flex"))
            (Some (or_text message (lit "Connected")))
      else if String.eqb status "error" then
        Dom (Some (Element (classList_add "error" removed) "flex"))
            (Some (or_text message (lit "Error")))
      else if String.eqb status "disabled" then
        Dom (Some (Element (classList_add "disabled" removed) "flex"))
            (Some (or_text message (lit "Disabled")))
      else if String.eqb status "connecting" then
        Dom (Some (Element (classList_add "connecting" removed) "flex"))
            (Some (or_text message (lit "Connecting...")))
      else
        Dom (Some (Element removed "none")) (Some dbStatusText)
  | _, _ => d
  end.

(** [window.supabase]: not defined, defined but falsy, or the library. *)
Inductive library := LibraryUndefined | LibraryFalsy | LibraryLoaded.

(** What [initSupabase] finds: [window.supabase]; what loading the script
    gives ([None] when it fails to load, else [window.supabase] afterwards);
    the three values read from [window.CONFIG] ([undefined] when a link of
    the chain is missing); whether [createClient] returns ([None] when it
    throws); and the answer of the connection test. *)
Record setting := Setting {
  window_supabase : library;
  loadSupabaseLibrary : option library;
  supabaseUrl : value;
  supabaseKey : value;
  databaseEnabled : value;
  createClient : option unit;
  connection_test : reply unit;
}.

(** The page: the globals of the script and the status indicator. *)
Record page := Page {
  globals : world;
  document : dom;
}.

Definition set_status (status : string) (message : text) (p : page) : page :=
  Page (globals p) (updateDatabaseStatus status message (document p)).

Definition set_supabaseClient (client : bool) (p : page) : page :=
  let w := globals p in
  Page (World (supabaseInitialized w) client (currentFile w) (currentAnalysisData w)
          (fileInput w) (medicalText w) (resultModal w) (remote w) (result w) (trace w))
       (document p).

Definition set_supabaseInitialized (initialized : bool) (p : page) : page :=
  let w := globals p in
  Page (World initialized (supabaseClient w) (currentFile w) (currentAnalysisData w)
          (fileInput w) (medicalText w) (resultModal w) (remote w) (result w) (trace w))
       (document p).

(** [dbIndicator.style.display = 'flex'] when the indicator exists. *)
Definition show_indicator (p : page) : page :=
  match dbStatusIndicator (document p) with
  | Some dbIndicator =>
      Page (globals p)
           (Dom (Some (Element (classList dbIndicator) "flex")) (dbStatusText (document p)))
  | None => p
  end.

(** [supabaseUrl.includes('your-project-id') ||
     supabaseKey.includes('your-anon-public-key')] on truthy values: [None]
    when it throws, [includes] being a method of strings only. *)
Definition placeholder (supabaseUrl supabaseKey : value) : option bool :=
  match supabaseUrl with
  | VStr u =>
      if includes (lit "your-project-id") u then Some true
      else match supabaseKey with
           | VStr k => Some (includes (lit "your-anon-public-key") k)
           | _ => None
           end
  | _ => None
  end.

(** [initSupabase()]: the value it resolves to, and the page after. An
    exception thrown in its body is caught there. *)
Definition initSupabase (S : setting) (p : page) : bool * page :=
  let caught p := (false, set_status "error" (lit "Init failed") p) in
  (* Check if Supabase library is loaded *)
  match (match window_supabase S with
         | LibraryUndefined => loadSupabaseLibrary S
         | present => Some present
         end) with
  | None => caught p
  | Some supabase =>
      (* Check if database features are enabled *)
      if negb (truthy (databaseEnabled S)) then
        (false, set_status "disabled" (lit "Not configured") p)
      (* Check if credentials exist *)
      else if negb (truthy (supabaseUrl S)) || negb (truthy (supabaseKey S)) then
        (false, set_status "disabled" (lit "Not configured") p)
      else
        (* Check if using placeholder values *)
        match placeholder (supabaseUrl S) (supabaseKey S) with
        | None => caught p
        | Some true => (false, set_status "disabled" (lit "Update .env") p)
        | Some false =>
            match supabase with
            | LibraryLoaded =>
                match createClient S with
                | None => caught p
                | Some _ =>
                    let p := set_supabaseClient true p in
                    (* Test the connection *)
                    match connection_test S with
                    | Rejected _ => caught p
                    | Failed _ =>
                        (false, set_status "error" (lit "Connection failed") p)
                    | Succeeded _ =>
                        let p := set_supabaseInitialized true p in
                        let p := set_status "connected" (lit "Database ready") p in
                        (true, show_indicator p)
                    end
                end
            | _ => (false, set_status "disabled" (lit "Library missing") p)
            end
        end
  end.

(** The theme: the [data-theme] attribute of the document element, the
    [theme] item of [localStorage], and the class of the icon in
    [#themeToggle] when the page has one. *)
Record theme_state := ThemeState {
  data_theme : option text;
  stored_theme : option text;
  icon : option text;
}.

(** [updateThemeIcon(theme)] *)
Definition updateThemeIcon (theme : text) (s : theme_state) : theme_state :=
  ThemeState (data_theme s) (stored_theme s)
    (match icon s with
     | Some _ =>
         Some (if bool_decide (theme = lit "dark") then lit "fas fa-sun" else lit "fas fa-moon")
     | None => None
     end).

(** [toggleTheme()] *)
Definition toggleTheme (s : theme_state) : theme_state :=
  let currentTheme := data_theme s in
  let newTheme :=
    if bool_decide (currentTheme = Some (lit "dark")) then lit "light" else lit "dark" in
  updateThemeIcon newTheme (ThemeState (Some newTheme) (Some newTheme) (icon s)).

(** The theme part of the [DOMContentLoaded] listener:
    [localStorage.getItem('theme') || 'light'] is applied. *)
Definition restoreTheme (s : theme_state) : theme_state :=
  let savedTheme :=
    match stored_theme s with
    | Some (c :: t) => c :: t
    | _ => lit "light"
    end in
  updateThemeIcon savedTheme (ThemeState (Some savedTheme) (stored_theme s) (icon s)).

End Startup.

(** ** The selection of a file *)

Module FileHandling.
Import Workflow.

(** [handleFiles(files)]: the first file becomes the current one.
    ([updateFileInfo] then displays its name and size.) *)
Definition handleFiles (files : list file) (w : world) : world :=
  match files with
  | [] => w
  | file :: _ => set_file (Some file) (fileInput w) w
  end.

(** The [change] listener of the file input; [this.files] is what the input
    holds. [initFileHandling] installs the listeners only when the page has
    the file input. *)
Definition change (w : world) : world :=
  match fileInput w with
  | Some files => if (0 <? length files)%nat then handleFiles files w else w
  | None => w
  end.

(** The [drop] listener of the upload zone: the input is given the first of
    the dropped files. *)
Definition drop (files : list file) (w : world) : world :=
  match fileInput w with
  | Some _ =>
      match files with
      | first :: _ => handleFiles files (set_file (currentFile w) (Some [first]) w)
      | [] => w
      end
  | None => w
  end.

End FileHandling.

(** * Vocabulary of the properties *)

Section WorkflowVocabulary.
Import Workflow.

(** The events a computation adds to the trace all satisfy [P]. *)
Definition emits_only (P : event -> Prop) {A} (m : M A) : Prop :=
  forall w, exists evs, trace (m w).2 = (trace w ++ evs)%list /\ Forall P evs.

(** The computation always ends in an exception. *)
Definition never_returns {A} (m : M A) : Prop :=
  forall w, exists e w', m w = (Throw e, w').

(** The trace a computation adds starts with the events [es]. *)
Definition begins_with (es : list event) {A} (m : M A) : Prop :=
  forall w, exists rest, trace (m w).2 = (trace w ++ es ++ rest)%list.

(** Whether an insert was answered with the row it made. *)
Definition returns_row (r : reply (option value)) : bool :=
  match r with
  | Succeeded (Some _) => true
  | _ => false
  end.

(** The calls, the result set and the store after [deleteAllRecords], as
    functions of its arguments and of the answers. *)
Definition cleanup_calls (fileId analysisId storagePath : value) : list event :=
  ((if truthy storagePath then [StorageRemove storagePath] else [])
   ++ (if truthy analysisId then [AnalysesDelete analysisId] else [])
   ++ (if truthy fileId then [DocumentsDelete fileId] else []))%list.

Definition cleanup_results (E : env) (fileId analysisId storagePath : value) : results :=
  Results (truthy storagePath && succeeded (storage_remove E))
          (truthy fileId && succeeded (documents_delete E))
          (truthy analysisId && succeeded (analyses_delete E)).

Definition cleanup_store (E : env) (fileId analysisId storagePath : value) (s : store)
  : store :=
  let r := cleanup_results E fileId analysisId storagePath in
  let s1 := if storage r then remove_object storagePath s else s in
  let s2 := if analyses_deleted r then delete_analysis analysisId s1 else s1 in
  if documents_deleted r then delete_document fileId s2 else s2.

(** The conditions under which [uploadFile] reaches the clean-up: a file
    within the limit, persistence initialised, the upload and the document
    row made (with a present id [fid]), the API answering OK with [payload],
    and the analysis row made (with id [aid]). *)
Definition reaches_cleanup (E : env) (w : world) (f : file) (fid aid : value)
  (payload : object) : Prop :=
  (exists rest, fileInput w = Some (f :: rest))
  /\ size f <= 10 * 1024 * 1024
  /\ supabaseInitialized w = true /\ supabaseClient w = true
  /\ storage_upload E = Succeeded tt
  /\ documents_insert E = Succeeded (Some fid) /\ truthy fid = true
  /\ api_upload E = Responded true (inr payload)
  /\ analyses_insert E = Succeeded (Some aid).

(** The payload with the remote ids [uploadFile] adds before saving. *)
Definition tagged (fid : value) (url path : text) (payload : object) : object :=
  <["storage_path" := VStr path]>
    (<["file_url" := VStr url]> (<["db_file_id" := fid]> payload)).

(** The payload as shown after the clean-up. *)
Definition stripped (o : object) : object :=
  delete "storage_path" (delete "file_url" (delete "analysis_db_id" (delete "db_file_id" o))).

(** The summary toast of the clean-up. *)
Definition summary (r : results) : list event :=
  match deletedItems r with
  | [] => []
  | items =>
      [ShowToast (VStr (lit "Analysis complete - " ++ decimal (Z.of_nat (length items))
                          ++ lit " items cleaned up")%list) Success]
  end.

(** None of the three artifacts of an invocation is in the store. *)
Definition artifacts_absent (s : store) (path : text) (fid aid : value) : Prop :=
  bucket s !! path = None
  /\ Forall (fun row => get row "id" <> fid) (documents s)
  /\ Forall (fun row => get row "id" <> aid) (analyses s).

(** ** Concrete inputs *)

(** A 5 MiB PDF, and the payload the API answers with. *)
Definition pdf : file := File (lit "x.pdf") (5 * 1024 * 1024) (lit "application/pdf").

(** An 11 MiB scan. *)
Definition scan : file :=
  File (lit "scan.pdf") (11 * 1024 * 1024) (lit "application/pdf").

Definition api_payload : object :=
  <["analysis" := VStr (lit "OK")]> (<["filename" := VStr (lit "x.pdf")]> ∅).

Definition empty_store : store := Store ∅ [] [].

(** The page with persistence initialised, the file chosen and [entered] in
    the text area. *)
Definition page_with (f : file) (entered : text) : world :=
  World true true (Some f) None (Some [f]) (Some entered) true empty_store ∅ [].

Definition page : world := page_with pdf (lit "Glucose: 98 mg/dL").

(** A text of 3001 letters between blanks. *)
Definition long_text : text := (lit " " ++ replicate 3001 97%N ++ lit " ")%list.

(** The answers of the remote services: the upload, the two inserts (ids 7
    and 9 when they return a row) and the three deletions. *)
Definition answers (upload : reply unit) (document analysis : reply (option value))
  (remove_file delete_analysis delete_document : reply unit) : env :=
  Env 1700000000000 (lit "2024-02-09T10:00:00.000Z")
    (fun path => (lit "https://store.example/" ++ path)%list)
    (fun _ => lit "{}")
    upload document
    (Responded true (inr api_payload)) (Responded true (inr api_payload))
    analysis remove_file delete_analysis delete_document.

Definition row (n : Z) : reply (option value) := Succeeded (Some (VNum n)).

Definition all_ok : env :=
  answers (Succeeded tt) (row 7) (row 9) (Succeeded tt) (Succeeded tt) (Succeeded tt).

Definition remove_refused : env :=
  answers (Succeeded tt) (row 7) (row 9)
    (Failed (lit "permission denied")) (Succeeded tt) (Succeeded tt).

Definition analysis_insert_refused : env :=
  answers (Succeeded tt) (row 7) (Failed (lit "row-level security"))
    (Succeeded tt) (Succeeded tt) (Succeeded tt).

Definition document_insert_refused : env :=
  answers (Succeeded tt) (Failed (lit "row-level security")) (row 9)
    (Succeeded tt) (Succeeded tt) (Succeeded tt).

Definition upload_refused : env :=
  answers (Failed (lit "bucket not found")) (row 7) (row 9)
    (Succeeded tt) (Succeeded tt) (Succeeded tt).

Definition stored_path : text := lit "uploads/1700000000000-x.pdf".

End WorkflowVocabulary.

Section WorkerVocabulary.
Import ServiceWorker.

(** The application shell as installed: the root document is in the current
    cache. *)
Definition app_root : string := "https://app.example/".

Definition root_document : response := Response 200 Basic (lit "<!DOCTYPE html>").

Definition installed : sw_state :=
  SwState [(CACHE_NAME, {[app_root := root_document]})] [].

Definition offline : string -> option response := fun _ => None.

Definition history_page : request := Request "https://app.example/history" Navigate.

(** A style sheet of the application, online. *)
Definition style_sheet : request :=
  Request "https://app.example/static/css/apple-style.css" NoCors.

Definition style_response : response := Response 200 Basic (lit "body { margin: 0 }").

Definition online : string -> option response := fun _ => Some style_response.

End WorkerVocabulary.

(** * Vocabulary of the further properties *)

Section FurtherWorkflowVocabulary.
Import Workflow.

(** The two events of the loading indicator. *)
Definition is_loading (e : event) : bool :=
  match e with
  | ShowLoading | HideLoading => true
  | _ => false
  end.

(** Calls to the remote store (storage and tables). *)
Definition is_store_call (e : event) : bool :=
  match e with
  | StorageUpload _ _ | StorageRemove _ | DocumentsInsert _ | DocumentsDelete _
  | AnalysesInsert _ | AnalysesDelete _ => true
  | _ => false
  end.

(** The payloads handed to the result view, in order. *)
Fixpoint shown (l : list event) : list object :=
  match l with
  | [] => []
  | ShowResults d :: r => d :: shown r
  | _ :: r => shown r
  end.

(** The fields [uploadFile] adds to the payload for the remote store. *)
Definition remote_ids : list string :=
  ["db_file_id"; "analysis_db_id"; "file_url"; "storage_path"].

(** The fields [analyzeText] and [saveTextAnalysisToDatabase] write. *)
Definition text_fields : list string :=
  ["filename"; "file_size"; "text_length"; "analysis_db_id"].

(** [d] has the fields of [p], except perhaps those of [keys]. *)
Definition agrees_outside (keys : list string) (p d : object) : Prop :=
  forall k, k ∉ keys -> d !! k = p !! k.

(** The file [uploadFile] goes on with: the first of the file input, when it
    is within the size limit. *)
Definition selected (w : world) : option file :=
  match fileInput w with
  | Some (f :: _) => if size f >? 10 * 1024 * 1024 then None else Some f
  | _ => None
  end.

(** The text [analyzeText] goes on with: the trimmed value of the text area,
    when it is not empty. *)
Definition entered_text (w : world) : option text :=
  match medicalText w with
  | Some entered =>
      match trim entered with
      | [] => None
      | t => Some t
      end
  | None => None
  end.

(** What every run of [uploadFile] satisfies, whatever the remote store
    answers: [r] is the run from [w] under [E]. *)
Definition upload_report (E : env) (w : world) (r : outcome unit * world) : Prop :=
  let effs := trace r.2 in
  r.1 = Return tt
  /\ List.filter is_loading effs
     = match selected w with Some _ => [ShowLoading; HideLoading] | None => [] end
  /\ List.filter is_api effs
     = match selected w with Some f => [ApiUpload f] | None => [] end
  /\ (if supabaseInitialized w then True
      else Forall (fun e => is_store_call e = false) effs /\ remote r.2 = remote w)
  /\ supabaseInitialized r.2 = supabaseInitialized w
  /\ supabaseClient r.2 = supabaseClient w
  /\ match selected w, api_upload E with
     | Some f, Responded true (inr p) =>
         length (shown effs) = (if resultModal w then 1%nat else 0%nat)
         /\ Forall (agrees_outside remote_ids p) (shown effs)
         /\ last effs = Some ClearFile
         /\ fileInput r.2 = Some []
         /\ currentFile r.2 = None
         /\ currentAnalysisData r.2
            = (if resultModal w then last (shown effs) else currentAnalysisData w)
     | Some f, Responded false (inr p) =>
         shown effs = []
         /\ last effs
            = Some (ShowToast (or_else (get p "error") (VStr (lit "Upload failed"))) Error)
         /\ fileInput r.2 = fileInput w
     | Some f, NetworkError m | Some f, Responded _ (inl m) =>
         shown effs = []
         /\ last effs = Some (ShowToast (VStr (lit "Network error: " ++ m)%list) Error)
         /\ fileInput r.2 = fileInput w
     | None, _ =>
         shown effs = [] /\ Forall (fun e => is_network e = false) effs
     end.

(** The same for [analyzeText]. *)
Definition text_report (E : env) (w : world) (r : outcome unit * world) : Prop :=
  let effs := trace r.2 in
  r.1 = Return tt
  /\ List.filter is_loading effs
     = match entered_text w with Some _ => [ShowLoading; HideLoading] | None => [] end
  /\ List.filter is_api effs
     = match entered_text w with Some t => [ApiText (take 3000 t)] | None => [] end
  /\ (if supabaseInitialized w then True
      else Forall (fun e => is_store_call e = false) effs /\ remote r.2 = remote w)
  /\ medicalText r.2 = medicalText w
  /\ match entered_text w, api_text E with
     | Some t, Responded true (inr p) =>
         length (shown effs) = (if resultModal w then 1%nat else 0%nat)
         /\ Forall (agrees_outside text_fields p) (shown effs)
         /\ last effs = Some HideLoading
         /\ currentAnalysisData r.2
            = (if resultModal w then last (shown effs) else currentAnalysisData w)
     | Some t, Responded false (inr p) =>
         shown effs = []
         /\ last effs
            = Some (ShowToast (or_else (get p "error") (VStr (lit "Analysis failed"))) Error)
     | Some t, NetworkError m | Some t, Responded _ (inl m) =>
         shown effs = []
         /\ last effs = Some (ShowToast (VStr (lit "Network error: " ++ m)%list) Error)
     | None, _ =>
         shown effs = [] /\ Forall (fun e => is_network e = false) effs
     end.

(** The message [uploadFile] reports when the API call does not end in an OK
    response with a JSON object. *)
Definition upload_failure (r : api_reply) : option value :=
  match r with
  | NetworkError m | Responded _ (inl m) => Some (VStr (lit "Network error: " ++ m)%list)
  | Responded false (inr p) => Some (or_else (get p "error") (VStr (lit "Upload failed")))
  | Responded true (inr _) => None
  end.

End FurtherWorkflowVocabulary.

Section FurtherWorkflowInputs.
Import Workflow.

(** The page of the PDF with persistence not initialised. *)
Definition page_offline : world :=
  World false false (Some pdf) None (Some [pdf]) (Some (lit "Glucose: 98 mg/dL")) true
    empty_store ∅ [].

(** The page with an empty file list. *)
Definition page_no_file : world :=
  World true true None None (Some []) (Some []) true empty_store ∅ [].

(** The answers with the API refusing the upload. *)
Definition api_refuses : env :=
  Env 1700000000000 (lit "2024-02-09T10:00:00.000Z")
    (fun path => (lit "https://store.example/" ++ path)%list)
    (fun _ => lit "{}")
    (Succeeded tt) (row 7)
    (Responded false (inr (<["error" := VStr (lit "Unsupported file type")]> ∅)))
    (Responded false (inr ∅))
    (row 9) (Succeeded tt) (Succeeded tt) (Succeeded tt).

End FurtherWorkflowInputs.

Section TextCleanupVocabulary.
Import Workflow.

(** Whether the promise of a store call rejected. *)
Definition rejected {A} (r : reply A) : bool :=
  match r with
  | Rejected _ => true
  | _ => false
  end.

(** The conditions under which [analyzeText] reaches its clean-up: a text
    that is not blank, persistence initialised, the API answering OK with
    [payload], the document row made with a present id [did] and the
    analysis row made with id [aid]. *)
Definition reaches_text_cleanup (E : env) (w : world) (t : text) (did aid : value)
  (payload : object) : Prop :=
  entered_text w = Some t
  /\ supabaseInitialized w = true /\ supabaseClient w = true
  /\ api_text E = Responded true (inr payload)
  /\ documents_insert E = Succeeded (Some did) /\ truthy did = true
  /\ analyses_insert E = Succeeded (Some aid).

(** The payload after [saveTextAnalysisToDatabase] wrote the document's
    fields into it. *)
Definition text_payload (E : env) (t : text) (payload : object) : object :=
  <["text_length" := VNum (len t)]>
    (<["file_size" := VNum (utf8_size t)]>
       (<["filename" := VStr (lit "text-input-" ++ decimal (date_now E) ++ lit ".txt")%list]>
          payload)).

(** The store after the two deletions of the text clean-up. *)
Definition text_cleanup_store (E : env) (did aid : value) (s : store) : store :=
  let s1 := if succeeded (analyses_delete E) then delete_analysis aid s else s in
  if succeeded (documents_delete E) then delete_document did s1 else s1.

Definition cleaned_up_toast : event :=
  ShowToast (VStr (lit "Analysis complete - records cleaned up")) Success.

(** The answers with the two row deletions refused. *)
Definition deletes_refused : env :=
  answers (Succeeded tt) (row 7) (row 9)
    (Succeeded tt) (Failed (lit "permission denied")) (Failed (lit "permission denied")).

End TextCleanupVocabulary.

Section PathVocabulary.
Import Workflow.

(** The characters [safeFileName] lets through: digits, small letters and
    the underscore. *)
Definition is_safe (c : N) : bool :=
  ((48 <=? c) && (c <=? 57) || (97 <=? c) && (c <=? 122) || (c =? underscore))%N.

(** A file name with a usual extension. *)
Definition report_name : text := lit "Lab Report (final).v2.PDF".

End PathVocabulary.

Section LifecycleVocabulary.
Import ServiceWorker Lifecycle.

(** The worker serving a sequence of requests, each with the network as it
    is at that time. *)
Definition serve_all (root : string)
  (requests : list ((string -> option response) * request)) (s : sw_state) : sw_state :=
  foldl (fun s item => (serve item.1 root item.2 s).2) s requests.

(** No cache holds a response for an API URL. *)
Definition api_free (caches : cache_storage) : Prop :=
  forall u, includes "/api/" u = true -> caches_match caches u = None.

Definition app_origin : string := "https://app.example".

(** A worker that has not run yet, and one that finds the cache of an
    earlier version. *)
Definition fresh : sw_state := SwState [] [].

Definition upgraded : sw_state :=
  SwState [("meddoc-ai-v0", {[app_root := root_document]});
           (CACHE_NAME, {[url style_sheet := style_response]})] [].

(** The network with the font host down. *)
Definition fonts_down : string -> option response := fun u =>
  if String.prefix "https://fonts.googleapis.com/" u then None else Some style_response.

(** A call of the health API and its answer. *)
Definition health : request := Request "https://app.example/api/health" Cors.

Definition health_response : response := Response 200 Basic (lit "{}").

End LifecycleVocabulary.

Section StartupVocabulary.
Import Workflow Startup.

(** The four status classes of the indicator. *)
Definition status_classes : list string := ["connected"; "error"; "disabled"; "connecting"].

Definition is_status_class (c : string) : bool := existsb (String.eqb c) status_classes.

(** Two worlds that differ in the two flags of the store client at most. *)
Definition same_data (w w' : world) : Prop :=
  currentFile w' = currentFile w
  /\ currentAnalysisData w' = currentAnalysisData w
  /\ fileInput w' = fileInput w
  /\ medicalText w' = medicalText w
  /\ resultModal w' = resultModal w
  /\ remote w' = remote w
  /\ result w' = result w
  /\ trace w' = trace w.

(** The status classes the indicator carries, none when it is missing. *)
Definition shown_status (d : dom) : list string :=
  match dbStatusIndicator d with
  | Some dbIndicator => List.filter is_status_class (classList dbIndicator)
  | None => []
  end.

(** A page that has just been loaded, with the indicator in its initial
    state. *)
Definition loaded_page : page :=
  Page (World false false None None (Some [pdf]) (Some (lit "Glucose: 98 mg/dL")) true
          empty_store ∅ [])
       (Dom (Some (Element ["db-status"; "connecting"] "none")) (Some (lit "Connecting..."))).

(** A configured setting whose connection test is answered as given. *)
Definition configured (test : reply unit) : setting :=
  Setting LibraryLoaded None
    (VStr (lit "https://abc.supabase.co")) (VStr (lit "eyJhbGciOi"))
    (VBool true) (Some tt) test.

(** The setting of the sample [.env] file. *)
Definition sample_env : setting :=
  Setting LibraryLoaded None
    (VStr (lit "https://your-project-id.supabase.co")) (VStr (lit "your-anon-public-key"))
    (VBool true) (Some tt) (Succeeded tt).

End StartupVocabulary.

Section DigitsVocabulary.

(** The decimal digits. *)
Definition is_digit (c : N) : bool := ((48 <=? c) && (c <=? 57))%N.

End DigitsVocabulary.

(** * The JavaScript helpers on examples *)

Example trim_blank : trim (lit "  ") = [].
Proof. reflexivity. Qed.

Example trim_inner : trim (lit "  a b ") = lit "a b".
Proof. reflexivity. Qed.

Example decimal_timestamp : decimal 1700000000123 = lit "1700000000123".
Proof. vm_compute. reflexivity. Qed.

Example split_dots : split 46 (lit "a.tar.gz") = [lit "a"; lit "tar"; lit "gz"].
Proof. reflexivity. Qed.

Example utf8_size_mixed :
  utf8_size [104; 233; 8364; 55357; 56832; 56832]%N = 1 + 2 + 3 + 4 + 3.
Proof. reflexivity. Qed.

(** A string of white space only is empty after trimming. *)
Lemma trim_spaces (s : text) : forallb is_space s = true -> trim s = [].
Proof.
  intros H. unfold trim.
  assert (Hs : trimStart s = []).
  { induction s as [|c s IH]; [done|]. simpl in *.
    apply andb_true_iff in H as [-> ?]. auto. }
  by rewrite Hs.
Qed.

(** * A logic of traces *)

Section TraceLogic.
Import Workflow.

Context (P : event -> Prop).

(** The rules, one per construct of the monad. *)
Lemma emits_only_ret {A} (a : A) : emits_only P (mret a).
Proof. intros w. exists []. by rewrite app_nil_r. Qed.

Lemma emits_only_throw {A} e : emits_only P (@throw A e).
Proof. intros w. exists []. by rewrite app_nil_r. Qed.

Lemma emits_only_gets {A} (f : world -> A) : emits_only P (gets f).
Proof. intros w. exists []. by rewrite app_nil_r. Qed.

Lemma emits_only_modify f :
  (forall w, trace (f w) = trace w) -> emits_only P (modify f).
Proof. intros Hf w. exists []. by rewrite app_nil_r; simpl. Qed.

Lemma emits_only_emit e : P e -> emits_only P (emit e).
Proof. intros He []. exists [e]. split; [done | by constructor]. Qed.

Lemma emits_only_bind {A B} (m : M A) (k : A -> M B) :
  emits_only P m -> (forall a, emits_only P (k a)) -> emits_only P (m ≫= k).
Proof.
  intros Hm Hk w. destruct (Hm w) as (evs & Ht & Hevs).
  unfold mbind, M_bind. destruct (m w) as [[a|e] w1]; simpl in *.
  - destruct (Hk a w1) as (evs' & Ht' & Hevs').
    exists (evs ++ evs')%list. rewrite Ht', Ht, app_assoc. split; [done|].
    by apply Forall_app.
  - by exists evs.
Qed.

Lemma emits_only_try_catch {A} (body : M A) (handler : text -> M A) :
  emits_only P body -> (forall e, emits_only P (handler e)) ->
  emits_only P (try_catch body handler).
Proof.
  intros Hm Hk w. destruct (Hm w) as (evs & Ht & Hevs).
  unfold try_catch. destruct (body w) as [[a|e] w1]; simpl in *.
  - by exists evs.
  - destruct (Hk e w1) as (evs' & Ht' & Hevs').
    exists (evs ++ evs')%list. rewrite Ht', Ht, app_assoc. split; [done|].
    by apply Forall_app.
Qed.

(** What follows a computation that always throws adds nothing. *)
Lemma emits_only_diverted {A B} (m : M A) (k : A -> M B) :
  emits_only P m -> never_returns m -> emits_only P (m ≫= k).
Proof.
  intros Hm Hn w. destruct (Hm w) as (evs & Ht & Hevs).
  destruct (Hn w) as (e & w' & Hw).
  unfold mbind, M_bind. rewrite Hw in *. by exists evs.
Qed.

Lemma begins_with_nil {A} (m : M A) : emits_only P m -> begins_with [] m.
Proof. intros Hm w. destruct (Hm w) as (evs & Ht & _). by exists evs. Qed.

Lemma begins_with_emit {A} e es (k : unit -> M A) :
  begins_with es (k tt) -> begins_with (e :: es) (emit e ≫= k).
Proof.
  intros Hk w. destruct w. unfold mbind, M_bind, emit, modify. simpl.
  match goal with |- context [k tt ?w1] => destruct (Hk w1) as (rest & Ht) end.
  exists rest. rewrite Ht. simpl. by rewrite <- app_assoc.
Qed.

Lemma begins_with_bind {A B} es (m : M A) (k : A -> M B) :
  begins_with es m -> (forall a, emits_only P (k a)) -> begins_with es (m ≫= k).
Proof.
  intros Hm Hk w. destruct (Hm w) as (rest & Ht).
  unfold mbind, M_bind. destruct (m w) as [[a|e] w1]; simpl in *.
  - destruct (Hk a w1) as (evs & Ht' & _).
    exists (rest ++ evs)%list. by rewrite Ht', Ht, <- !app_assoc.
  - by exists rest.
Qed.

Lemma begins_with_try_catch {A} es (body : M A) (handler : text -> M A) :
  begins_with es body -> (forall e, emits_only P (handler e)) ->
  begins_with es (try_catch body handler).
Proof.
  intros Hm Hk w. destruct (Hm w) as (rest & Ht).
  unfold try_catch. destruct (body w) as [[a|e] w1]; simpl in *.
  - by exists rest.
  - destruct (Hk e w1) as (evs & Ht' & _).
    exists (rest ++ evs)%list. by rewrite Ht', Ht, <- !app_assoc.
Qed.

(** From the logic to the effects of an invocation. *)
Lemma begins_with_effects {A} es (m : M A) w :
  begins_with es m -> exists rest, effects m w = (es ++ rest)%list.
Proof.
  intros Hm. destruct (Hm (set_trace [] w)) as (rest & Ht).
  exists rest. unfold effects, after, invoke. rewrite Ht. by destruct w.
Qed.

(** A read of the world is not an effect. *)
Lemma effects_gets_bind {A B} (f : world -> A) (k : A -> M B) w :
  effects (gets f ≫= k) w = effects (k (f (set_trace [] w))) w.
Proof. reflexivity. Qed.

(** From the logic to the effects of an invocation. *)
Lemma emits_only_effects {A} (m : M A) w : emits_only P m -> Forall P (effects m w).
Proof.
  intros Hm. destruct (Hm (set_trace [] w)) as (evs & Ht & Hevs).
  unfold effects, after, invoke. rewrite Ht. by destruct w.
Qed.

End TraceLogic.

Ltac head_of t :=
  lazymatch t with
  | ?f _ => head_of f
  | _ => t
  end.

(** One step of the trace logic on the goal. *)
Ltac emits_step :=
  lazymatch goal with
  | |- emits_only _ (mret _) => apply emits_only_ret
  | |- emits_only _ (Workflow.throw _) => apply emits_only_throw
  | |- emits_only _ (Workflow.gets _) => apply emits_only_gets
  | |- emits_only _ (Workflow.emit _) =>
      apply emits_only_emit; first [done | by intros [=]]
  | |- emits_only _ (Workflow.modify _) =>
      apply emits_only_modify; intros []; reflexivity
  | |- emits_only _ (Workflow.try_catch _ _) =>
      apply emits_only_try_catch; [|intros ?]
  | |- emits_only _ (_ ≫= _) =>
      first [ apply emits_only_diverted; [|solve [auto]]
            | apply emits_only_bind; [|intros ?] ]
  | |- emits_only _ (match ?x with _ => _ end) => destruct x
  | |- emits_only _ ?m => let h := head_of m in unfold h
  end.

(** Symbolic execution: unfolds the script, the client and the monad, and
    nothing of the data (maps, strings, numbers). *)
Ltac exec :=
  cbv beta iota zeta delta
    [Workflow.effects Workflow.after Workflow.invoke
     Workflow.uploadFile Workflow.analyzeText Workflow.deleteAllRecords
     Workflow.uploadToDatabase Workflow.saveAnalysisToDatabase
     Workflow.saveTextAnalysisToDatabase Workflow.require_client
     Workflow.showToast Workflow.showLoading Workflow.hideLoading
     Workflow.showResults Workflow.clearFile Workflow.delay
     Workflow.storage_from_upload Workflow.storage_from_remove
     Workflow.from_documents_insert Workflow.from_analyses_insert
     Workflow.from_documents_delete Workflow.from_analyses_delete
     Workflow.api Workflow.answered
     Workflow.emit Workflow.modify Workflow.gets Workflow.throw Workflow.try_catch
     Workflow.result_set Workflow.result_delete
     mbind mret fmap option_fmap option_map Workflow.M_bind Workflow.M_ret
     Workflow.set_trace Workflow.set_remote Workflow.set_result
     Workflow.set_currentAnalysisData Workflow.set_file
     Workflow.supabaseInitialized Workflow.supabaseClient Workflow.currentFile
     Workflow.currentAnalysisData Workflow.fileInput Workflow.medicalText
     Workflow.resultModal Workflow.remote Workflow.result Workflow.trace
     Workflow.with_id Workflow.storage Workflow.documents_deleted
     Workflow.analyses_deleted Workflow.succeeded
     Workflow.id Workflow.url Workflow.path
     Workflow.date_now Workflow.date_iso Workflow.getPublicUrl Workflow.JSON_stringify
     Workflow.storage_upload Workflow.documents_insert Workflow.api_upload
     Workflow.api_text Workflow.analyses_insert Workflow.storage_remove
     Workflow.analyses_delete Workflow.documents_delete
     fst snd negb andb orb];
  cbn [app].

(** * Properties of the upload/analysis workflow *)

Section WorkflowProperties.
Import Workflow.

(** Property reads after a property write. *)
Lemma get_insert_eq (o : object) k v : get (<[k := v]> o) k = v.
Proof. unfold get. by rewrite lookup_insert_eq. Qed.

Lemma get_insert_ne (o : object) k k' v : k <> k' -> get (<[k := v]> o) k' = get o k'.
Proof. intros H. unfold get. by rewrite lookup_insert_ne. Qed.

(** The storage path is never the empty string. *)
Lemma filePath_truthy timestamp name : truthy (VStr (filePath timestamp name)) = true.
Proof. reflexivity. Qed.

(** The storage path on examples. *)
Example filePath_pdf : filePath (date_now all_ok) (name pdf) = stored_path.
Proof. vm_compute. reflexivity. Qed.

Example filePath_no_extension :
  filePath 5 (lit "Lab Report") = lit "uploads/5-lab_report.Lab Report".
Proof. vm_compute. reflexivity. Qed.

Example filePath_trailing_dot : filePath 5 (lit "a.b.") = lit "uploads/5-a_b_.bin".
Proof. vm_compute. reflexivity. Qed.

(** ** The clean-up *)

(** What [deleteAllRecords] does with an initialised client, for every way
    the three deletions can be answered. *)
Lemma deleteAllRecords_run (E : env) (w : world) fileId analysisId storagePath :
  supabaseInitialized w = true -> supabaseClient w = true ->
  deleteAllRecords E fileId analysisId storagePath w
  = (Return (cleanup_results E fileId analysisId storagePath),
     set_trace (trace w ++ cleanup_calls fileId analysisId storagePath)
       (set_remote (cleanup_store E fileId analysisId storagePath (remote w)) w)).
Proof.
  intros Hi Hc. destruct w; simpl in Hi, Hc; subst.
  unfold deleteAllRecords, cleanup_store, cleanup_results, cleanup_calls. exec.
  destruct (truthy fileId), (truthy analysisId), (truthy storagePath);
  destruct E as [? ? ? ? ? ? ? ? ? [?|?|[]] [?|?|[]] [?|?|[]]]; exec;
    by rewrite <- ?app_assoc, ?app_nil_r.
Qed.

(** The whole run of [uploadFile] when it reaches the clean-up. *)
Lemma uploadFile_cleanup_run (E : env) (w : world) f fid aid payload :
  reaches_cleanup E w f fid aid payload ->
  let p := filePath (date_now E) (name f) in
  let u := getPublicUrl E p in
  let saved := tagged fid u p payload in
  let r := cleanup_results E fid aid (VStr p) in
  let shown := stripped (<["analysis_db_id" := aid]> saved) in
  effects (uploadFile E) w
  = ([ShowLoading; StorageUpload p f; DocumentsInsert (documentData E f p u);
      ApiUpload f; AnalysesInsert (insertData E saved fid); Delay 1000]
     ++ cleanup_calls fid aid (VStr p) ++ summary r
     ++ (if resultModal w then [ShowResults shown] else [])
     ++ [HideLoading; ClearFile])%list
  /\ remote (after (uploadFile E) w)
     = cleanup_store E fid aid (VStr p)
         (insert_analysis (insertData E saved fid) (Some aid)
            (insert_document (documentData E f p u) (Some fid)
               (put_object p f (remote w))))
  /\ result (after (uploadFile E) w) = shown.
Proof.
  intros ([rest Hin] & Hsz & Hi & Hc & Hsu & Hdi & Hfid & Hapi & Hai).
  destruct w; simpl in Hin, Hi, Hc; subst.
  destruct E; simpl in Hsu, Hdi, Hapi, Hai; subst.
  assert (Hs : (size f >? 10 * 1024 * 1024) = false) by lia.
  unfold effects, after, invoke, uploadFile.
  match goal with |- context [deleteAllRecords ?e] => set (D := deleteAllRecords e) end.
  exec. rewrite Hs.
  repeat (exec; rewrite ?get_insert_eq, ?Hfid).
  subst D. rewrite deleteAllRecords_run by reflexivity.
  unfold summary. exec.
  destruct (deletedItems _), resultModal0; exec;
    unfold stripped, tagged; by rewrite <- ?app_assoc.
Qed.

(** The page with the PDF reaches the clean-up under answers that make the
    two rows 7 and 9. *)
Lemma page_reaches_cleanup (E : env) :
  storage_upload E = Succeeded tt ->
  documents_insert E = row 7 ->
  api_upload E = Responded true (inr api_payload) ->
  analyses_insert E = row 9 ->
  reaches_cleanup E page pdf (VNum 7) (VNum 9) api_payload.
Proof.
  intros Hu Hd Ha Hi. unfold reaches_cleanup.
  repeat split; try done. by exists [].
Defined.

(** The scenario of the specification: the 5 MiB PDF, persistence enabled,
    every call answered with success. The result is shown without remote
    ids and the store is empty again. *)
Example upload_pdf_all_ok :
  effects (uploadFile all_ok) page
  = [ShowLoading;
     StorageUpload stored_path pdf;
     DocumentsInsert (documentData all_ok pdf stored_path
                        (lit "https://store.example/uploads/1700000000000-x.pdf"));
     ApiUpload pdf;
     AnalysesInsert (insertData all_ok
                       (tagged (VNum 7) (lit "https://store.example/uploads/1700000000000-x.pdf")
                          stored_path api_payload) (VNum 7));
     Delay 1000;
     StorageRemove (VStr stored_path); AnalysesDelete (VNum 9); DocumentsDelete (VNum 7);
     ShowToast (VStr (lit "Analysis complete - 3 items cleaned up")) Success;
     ShowResults api_payload; HideLoading; ClearFile]
  /\ remote (after (uploadFile all_ok) page) = empty_store.
Proof. vm_compute. done. Qed.

(** ** C1 *)

(** After [delete().eq('id', id)] no row has that id. *)
Lemma delete_rows_absent (id : value) (rows : list object) :
  Forall (fun row => get row "id" <> id) (delete_rows id rows).
Proof.
  apply Forall_forall. intros row Hrow.
  by apply list_elem_of_filter in Hrow as [? _].
Qed.

(** When the storage upload is refused, [uploadFile] leaves the store as it
    found it. *)
Lemma uploadFile_refused_upload (E : env) (w : world) f rest :
  fileInput w = Some (f :: rest) ->
  size f <= 10 * 1024 * 1024 ->
  supabaseInitialized w = true ->
  succeeded (storage_upload E) = false ->
  remote (after (uploadFile E) w) = remote w.
Proof.
  intros Hin Hsz Hi Hsu.
  destruct w as [? client ? ? ? ? modal ? ? ?]; simpl in Hin, Hi; subst.
  assert (Hs : (size f >? 10 * 1024 * 1024) = false) by lia.
  unfold after, invoke, uploadFile.
  destruct E as [? ? ? ? [?|?|[]] ? [?|ok [?|?]] ? ? ? ? ?]; try discriminate;
    exec; rewrite Hs; destruct client; exec; try reflexivity;
    destruct ok, modal; reflexivity.
Qed.

(** C1 (as amended). In an invocation of [uploadFile] with persistence
    enabled that the API answers OK: when the storage upload is refused, the
    remote store is left as it was; when the upload, the document row, the
    analysis row and the three deletions are all answered with success, the
    storage object, the document row and the analysis row are absent from
    the remote store afterwards. *)
Theorem no_content_remains_after_successful_cleanup
  (E : env) (w : world) f fid aid payload :
  (exists rest, fileInput w = Some (f :: rest)) ->
  size f <= 10 * 1024 * 1024 ->
  supabaseInitialized w = true -> supabaseClient w = true ->
  api_upload E = Responded true (inr payload) ->
  (succeeded (storage_upload E) = false ->
   remote (after (uploadFile E) w) = remote w)
  /\ (storage_upload E = Succeeded tt ->
      documents_insert E = Succeeded (Some fid) -> truthy fid = true ->
      analyses_insert E = Succeeded (Some aid) -> truthy aid = true ->
      succeeded (storage_remove E) = true ->
      succeeded (analyses_delete E) = true ->
      succeeded (documents_delete E) = true ->
      artifacts_absent (remote (after (uploadFile E) w))
        (filePath (date_now E) (name f)) fid aid).
Proof.
  intros [rest Hin] Hsz Hi Hc Hapi. split.
  - intros Hsu. by eapply uploadFile_refused_upload.
  - intros Hsu Hdi Hfid Hai Haid Hsr Had Hdd.
    assert (Hreach : reaches_cleanup E w f fid aid payload).
    { unfold reaches_cleanup. eauto 12. }
    destruct (uploadFile_cleanup_run E w f fid aid payload Hreach) as (_ & -> & _).
    unfold cleanup_store, cleanup_results.
    rewrite Hsr, Had, Hdd, Hfid, Haid. cbn.
    repeat split.
    + apply lookup_delete_eq.
    + apply delete_rows_absent.
    + apply delete_rows_absent.
Qed.

(** Both cases on the page with the PDF: every call answered with success,
    and the upload refused. *)
Lemma no_content_remains_witness :
  artifacts_absent (remote (after (uploadFile all_ok) page)) stored_path (VNum 7) (VNum 9)
  /\ remote (after (uploadFile upload_refused) page) = remote page.
Proof.
  split.
  - apply (no_content_remains_after_successful_cleanup
             all_ok page pdf (VNum 7) (VNum 9) api_payload);
      first [reflexivity | by exists [] | by vm_compute].
  - apply (no_content_remains_after_successful_cleanup
             upload_refused page pdf VNull VNull api_payload);
      first [reflexivity | by exists [] | by vm_compute].
Defined.

(** C1, the claim as stated fails: every call of the persistence step is
    answered with success and the result is shown, but the storage removal is
    refused, and the uploaded file is still in the bucket afterwards. *)
Lemma content_remains_when_removal_is_refused :
  supabaseInitialized page = true
  /\ remote page = empty_store
  /\ ShowResults api_payload ∈ effects (uploadFile remove_refused) page
  /\ bucket (remote (after (uploadFile remove_refused) page)) !! stored_path = Some pdf.
Proof.
  split; [reflexivity|]. split; [reflexivity|]. split.
  - apply list_elem_of_In. vm_compute.
    repeat (first [left; reflexivity | right]).
  - vm_compute. reflexivity.
Qed.

(** Outside the amended claim: when the document row cannot be inserted
    after the file was stored, [uploadToDatabase] throws, the path is lost,
    and the stored file stays in the bucket although the result is shown. *)
Example stored_file_orphaned_when_document_insert_fails :
  In (ShowResults api_payload) (effects (uploadFile document_insert_refused) page)
  /\ Forall (fun e => is_deletion e = false)
       (effects (uploadFile document_insert_refused) page)
  /\ bucket (remote (after (uploadFile document_insert_refused) page)) !! stored_path
     = Some pdf.
Proof.
  split; [|split].
  - vm_compute. repeat (first [left; reflexivity | right]).
  - vm_compute. by repeat constructor.
  - vm_compute. reflexivity.
Qed.

(** ** C2 *)

(** When the insert returns no row, [saveAnalysisToDatabase] throws. *)
Lemma saveAnalysisToDatabase_fails E fileId :
  returns_row (analyses_insert E) = false ->
  never_returns (saveAnalysisToDatabase E fileId).
Proof.
  intros H w. destruct E; simpl in H.
  destruct w as [[] [] ? ? ? ? ? ? ? ?];
    destruct analyses_insert0 as [e|e|[i|]]; try discriminate; exec; eauto.
Qed.

(** C2. When the insert of the analysis row fails (the call rejects, answers
    with an error, or returns no row), an invocation of [uploadFile] makes no
    deletion call: no storage remove, no delete on [analyses], no delete on
    [documents]. *)
Theorem failed_analysis_insert_makes_no_deletion (E : env) (w : world) :
  returns_row (analyses_insert E) = false ->
  Forall (fun e => is_deletion e = false) (effects (uploadFile E) w).
Proof.
  intros H. apply emits_only_effects.
  pose proof (fun fileId => saveAnalysisToDatabase_fails E fileId H) as Hs.
  unfold uploadFile.
  repeat emits_step.
Qed.

(** The PDF with the analysis insert refused by row-level security. *)
Lemma failed_analysis_insert_witness :
  returns_row (analyses_insert analysis_insert_refused) = false
  /\ Forall (fun e => is_deletion e = false)
       (effects (uploadFile analysis_insert_refused) page).
Proof.
  split; [reflexivity|].
  apply (failed_analysis_insert_makes_no_deletion analysis_insert_refused page).
  reflexivity.
Defined.

(** ** C3 *)

(** C3. In an invocation that reaches the clean-up the order of the calls is
    fixed: the 1000 ms delay, then the storage object, the analysis row, the
    document row. The three deletions are attempted whatever each of them
    answers (the answers of [E] are arbitrary here), and the result set
    records for each whether it was answered with success. *)
Theorem cleanup_after_delay_in_order_each_recorded
  (E : env) (w : world) f fid aid payload :
  reaches_cleanup E w f fid aid payload ->
  truthy aid = true ->
  let p := filePath (date_now E) (name f) in
  (exists before rest,
      effects (uploadFile E) w
      = (before ++ [Delay 1000; StorageRemove (VStr p); AnalysesDelete aid;
                    DocumentsDelete fid] ++ rest)%list
      /\ Forall (fun e => is_deletion e = false) before
      /\ Forall (fun e => is_deletion e = false) rest)
  /\ (forall w1, supabaseInitialized w1 = true -> supabaseClient w1 = true ->
        effects (deleteAllRecords E fid aid (VStr p)) w1
        = [StorageRemove (VStr p); AnalysesDelete aid; DocumentsDelete fid]
        /\ (invoke (deleteAllRecords E fid aid (VStr p)) w1).1
           = Return (Results (succeeded (storage_remove E))
                             (succeeded (documents_delete E))
                             (succeeded (analyses_delete E)))).
Proof.
  intros Hreach Haid p.
  pose proof Hreach as (_ & _ & _ & _ & _ & _ & Hfid & _).
  assert (Hcalls : cleanup_calls fid aid (VStr p)
                   = [StorageRemove (VStr p); AnalysesDelete aid; DocumentsDelete fid]).
  { unfold cleanup_calls. by rewrite Haid, Hfid. }
  split.
  - destruct (uploadFile_cleanup_run E w f fid aid payload Hreach) as (Heff & _).
    fold p in Heff. rewrite Hcalls in Heff.
    exists (take 5 (effects (uploadFile E) w)), (drop 9 (effects (uploadFile E) w)).
    rewrite Heff. cbn [app take drop]. split; [reflexivity|]. split.
    + by repeat constructor.
    + apply Forall_app. split.
      * unfold summary. destruct (deletedItems _); by repeat constructor.
      * destruct (resultModal w); by repeat constructor.
  - intros w1 Hi Hc. unfold effects, after, invoke.
    rewrite deleteAllRecords_run by (by destruct w1).
    rewrite Hcalls. unfold cleanup_results. rewrite Haid, Hfid.
    by destruct w1.
Qed.

(** The PDF with the storage removal refused: the two rows are deleted all
    the same, in order, after the delay. *)
Lemma cleanup_order_witness :
  exists before rest,
    effects (uploadFile remove_refused) page
    = (before ++ [Delay 1000; StorageRemove (VStr stored_path); AnalysesDelete (VNum 9);
                  DocumentsDelete (VNum 7)] ++ rest)%list
    /\ Forall (fun e => is_deletion e = false) before
    /\ Forall (fun e => is_deletion e = false) rest.
Proof.
  apply (cleanup_after_delay_in_order_each_recorded
           remove_refused page pdf (VNum 7) (VNum 9) api_payload);
    [by apply page_reaches_cleanup | reflexivity].
Defined.

(** ** C4 *)

(** C4. A file of more than 10 MiB is rejected with the validation message
    and nothing else happens: the invocation makes no network call (no
    storage upload, no insert, no API request) and leaves the remote store as
    it was. *)
Theorem oversized_file_rejected_before_network (E : env) (w : world) f rest :
  fileInput w = Some (f :: rest) ->
  size f > 10 * 1024 * 1024 ->
  effects (uploadFile E) w
    = [ShowToast (VStr (lit "File too large. Maximum size is 10MB.")) Error]
  /\ Forall (fun e => is_network e = false) (effects (uploadFile E) w)
  /\ remote (after (uploadFile E) w) = remote w.
Proof.
  intros Hin Hsz.
  assert (Hgt : (size f >? 10 * 1024 * 1024) = true) by lia.
  assert (Hrun : invoke (uploadFile E) w
                 = (Return tt,
                    set_trace [ShowToast (VStr (lit "File too large. Maximum size is 10MB.")) Error] w)).
  { destruct w; simpl in Hin; subst. unfold invoke, uploadFile.
    exec. rewrite Hgt. reflexivity. }
  unfold effects, after. rewrite Hrun. destruct w; simpl.
  repeat split. by repeat constructor.
Qed.

(** The 11 MiB scan. *)
Lemma oversized_file_witness :
  size scan > 10 * 1024 * 1024
  /\ effects (uploadFile all_ok) (page_with scan [])
     = [ShowToast (VStr (lit "File too large. Maximum size is 10MB.")) Error].
Proof.
  split; [by vm_compute|].
  apply (oversized_file_rejected_before_network all_ok (page_with scan []) scan []);
    [reflexivity | by vm_compute].
Defined.

(** ** C5 *)

(** C5. The text [analyzeText] sends to the analysis API is the first 3000
    code units of the trimmed input: every API call of the invocation
    carries exactly that text, it is at most 3000 long, and a non-empty
    input of any length goes to the API right after the loading indicator,
    no error in between; a longer input is cut to 3000. *)
Theorem text_sent_to_api_is_truncated (E : env) (w : world) entered :
  medicalText w = Some entered ->
  Forall (fun e => is_api e = true -> e = ApiText (take 3000 (trim entered)))
    (effects (analyzeText E) w)
  /\ (length (take 3000 (trim entered)) <= 3000)%nat
  /\ (trim entered <> [] ->
      exists rest,
        effects (analyzeText E) w
        = ShowLoading :: ApiText (take 3000 (trim entered)) :: rest)
  /\ ((3000 < length (trim entered))%nat ->
      length (take 3000 (trim entered)) = 3000%nat
      /\ take 3000 (trim entered) `prefix_of` trim entered).
Proof.
  intros Hin.
  assert (Hread : medicalText (set_trace [] w) = Some entered) by (by destruct w).
  unfold analyzeText. rewrite effects_gets_bind, Hread. cbv beta iota.
  repeat split.
  - apply emits_only_effects. destruct (trim entered); repeat emits_step.
  - rewrite length_take. lia.
  - intros Hne. destruct (trim entered) as [|c t] eqn:Ht; [done|].
    apply (begins_with_effects [ShowLoading; ApiText (take 3000 (c :: t))]).
    unfold showLoading. apply begins_with_emit.
    apply (begins_with_try_catch (fun _ => True)); [|intros ?; repeat emits_step].
    apply (begins_with_bind (fun _ => True)); [|intros ?; repeat emits_step].
    unfold api. apply begins_with_emit.
    apply (begins_with_nil (fun _ => True)). repeat emits_step.
  - rewrite length_take. lia.
  - apply prefix_take.
Qed.

Example long_text_trimmed : trim long_text = replicate 3001 97%N.
Proof. vm_compute. reflexivity. Qed.

(** The text of 3001 letters. *)
Lemma truncated_text_witness :
  Forall (fun e => is_api e = true -> e = ApiText (take 3000 (trim long_text)))
    (effects (analyzeText all_ok) (page_with pdf long_text)).
Proof.
  apply (text_sent_to_api_is_truncated all_ok (page_with pdf long_text) long_text).
  reflexivity.
Defined.

(** ** C8 *)

(** The four deletes leave none of the remote-id fields. *)
Lemma stripped_lookup (o : object) k :
  k ∈ ["db_file_id"; "analysis_db_id"; "file_url"; "storage_path"] ->
  stripped o !! k = None.
Proof.
  intros Hk. unfold stripped. rewrite !lookup_delete.
  repeat (apply elem_of_cons in Hk as [->|Hk]; [by repeat case_decide|]).
  by apply elem_of_nil in Hk.
Qed.

(** The only payload shown by an invocation that reaches the clean-up. *)
Lemma uploadFile_cleanup_shown (E : env) (w : world) f fid aid payload data :
  reaches_cleanup E w f fid aid payload ->
  ShowResults data ∈ effects (uploadFile E) w ->
  let p := filePath (date_now E) (name f) in
  data = stripped (<["analysis_db_id" := aid]> (tagged fid (getPublicUrl E p) p payload)).
Proof.
  intros Hreach Hin p.
  destruct (uploadFile_cleanup_run E w f fid aid payload Hreach) as (Heff & _).
  rewrite Heff in Hin. clear Heff.
  unfold cleanup_calls, summary in Hin.
  destruct (truthy (VStr _)), (truthy aid), (truthy fid), (deletedItems _), (resultModal w);
    cbn [app] in Hin;
    repeat (apply elem_of_cons in Hin as [Hin|Hin]; [by inversion Hin|]);
    by apply elem_of_nil in Hin.
Qed.

(** C8. In an invocation that reaches the clean-up, the payload handed to
    the result view has none of the remote-id fields, and when the page has
    its result modal that payload is shown. *)
Theorem shown_payload_has_no_remote_ids (E : env) (w : world) f fid aid payload :
  reaches_cleanup E w f fid aid payload ->
  (resultModal w = true -> exists data, ShowResults data ∈ effects (uploadFile E) w)
  /\ (forall data, ShowResults data ∈ effects (uploadFile E) w ->
        data !! "db_file_id" = None /\ data !! "analysis_db_id" = None
        /\ data !! "file_url" = None /\ data !! "storage_path" = None).
Proof.
  intros Hreach. split.
  - intros Hmodal.
    destruct (uploadFile_cleanup_run E w f fid aid payload Hreach) as (Heff & _).
    rewrite Heff, Hmodal. eexists.
    rewrite !elem_of_app. right. right. right. left. apply list_elem_of_singleton.
    reflexivity.
  - intros data Hin.
    rewrite (uploadFile_cleanup_shown E w f fid aid payload data Hreach Hin).
    repeat split; apply stripped_lookup; set_solver.
Qed.

(** The PDF with every call answered with success: a result is shown. *)
Lemma shown_payload_witness :
  exists data, ShowResults data ∈ effects (uploadFile all_ok) page.
Proof.
  apply (shown_payload_has_no_remote_ids all_ok page pdf (VNum 7) (VNum 9) api_payload);
    [by apply page_reaches_cleanup | reflexivity].
Defined.

(** ** C9 *)

(** C9. An input that is empty after trimming is rejected with the
    validation message and nothing else happens: no API call, no call at
    all. *)
Theorem blank_text_rejected_before_api (E : env) (w : world) entered :
  medicalText w = Some entered ->
  trim entered = [] ->
  effects (analyzeText E) w
    = [ShowToast (VStr (lit "Please enter some medical text")) Error]
  /\ Forall (fun e => is_api e = false) (effects (analyzeText E) w).
Proof.
  intros Hin Hblank.
  assert (Hrun : effects (analyzeText E) w
                 = [ShowToast (VStr (lit "Please enter some medical text")) Error]).
  { destruct w; simpl in Hin; subst. unfold effects, after, invoke, analyzeText.
    exec. rewrite Hblank. reflexivity. }
  rewrite Hrun. split; [done | by repeat constructor].
Qed.

(** Two blanks in the text area. *)
Lemma blank_text_witness :
  trim (lit "  ") = []
  /\ effects (analyzeText all_ok) (page_with pdf (lit "  "))
     = [ShowToast (VStr (lit "Please enter some medical text")) Error].
Proof.
  split; [reflexivity|].
  apply (blank_text_rejected_before_api all_ok (page_with pdf (lit "  ")) (lit "  "));
    reflexivity.
Defined.

(** ** C10 *)

(** The [text_length] of the analysis row is the one of the payload when
    that is a non-zero number. *)
Lemma insertData_text_length (E : env) (o : object) (id : value) n :
  get o "text_length" = VNum n -> n <> 0 ->
  insertData E o id !! "text_length" = Some (VNum n).
Proof.
  intros Hget Hn. unfold insertData.
  rewrite !lookup_insert_ne, lookup_insert_eq by done.
  unfold or_else. rewrite Hget. simpl.
  by destruct (Z.eqb_spec n 0).
Qed.

(** The analysis row refers to the document it was given. *)
Lemma insertData_document_id (E : env) (o : object) (id : value) :
  insertData E o id !! "document_id" = Some id.
Proof. unfold insertData. by rewrite lookup_insert_eq. Qed.

Lemma get_insertData_document_id (E : env) (o : object) (id : value) :
  get (insertData E o id) "document_id" = id.
Proof. unfold get. by rewrite insertData_document_id. Qed.

(** The document row of a text holds the text it was given. *)
Lemma textDocument_text_content (E : env) (t : text) :
  textDocument E t !! "text_content" = Some (VStr t).
Proof.
  unfold textDocument. rewrite !lookup_insert_ne by done. apply lookup_insert_eq.
Qed.

(** C10. With persistence enabled and the API answering OK, [analyzeText]
    inserts a document row whose [text_content] is the whole trimmed input,
    although the API was sent its first 3000 code units only; and when that
    insert returns the row, the analysis row it inserts next carries the
    length of the whole trimmed input as [text_length]. *)
Theorem full_text_is_persisted (E : env) (w : world) entered payload :
  medicalText w = Some entered ->
  trim entered <> [] ->
  supabaseInitialized w = true -> supabaseClient w = true ->
  api_text E = Responded true (inr payload) ->
  exists document rest,
    effects (analyzeText E) w
    = ShowLoading :: ApiText (take 3000 (trim entered))
        :: DocumentsInsert document :: rest
    /\ document !! "text_content" = Some (VStr (trim entered))
    /\ (forall id, documents_insert E = Succeeded (Some id) ->
         exists analysis rest',
           rest = AnalysesInsert analysis :: rest'
           /\ analysis !! "document_id" = Some id
           /\ analysis !! "text_length" = Some (VNum (len (trim entered)))).
Proof.
  intros Hin Hne Hi Hc Hapi.
  destruct (trim entered) as [|c t] eqn:Ht; [done|].
  assert (Hlen : len (c :: t) <> 0) by (unfold len; simpl; lia).
  exists (textDocument E (c :: t)).
  pose proof (textDocument_text_content E (c :: t)) as Hcontent.
  destruct w as [? ? ? ? ? ? modal ? ? ?]; simpl in Hin, Hi, Hc; subst.
  destruct E as [? ? ? ? ? di ? ? ai ? ad dd]; simpl in Hapi; subst.
  unfold effects, after, invoke, analyzeText. exec. rewrite Ht. exec.
  destruct modal, di as [?|?|[id|]]; exec;
    try (eexists; split; [reflexivity|]; split; [exact Hcontent | by intros ? [=]]).
  all: rewrite ?get_insert_eq.
  all: destruct ai as [?|?|[aid|]]; exec;
    rewrite ?get_insert_eq, ?(get_insert_ne _ "id" "document_id"),
      ?get_insertData_document_id by done.
  all: try destruct (truthy id); exec.
  all: try (destruct ad as [?|?|[]]; exec).
  all: try (destruct dd as [?|?|[]]; exec).
  all: eexists; (split; [reflexivity|]); (split; [exact Hcontent|]);
       intros ? [= <-]; eexists _, _; (split; [reflexivity|]);
       (split; [apply insertData_document_id|]);
       apply insertData_text_length; [by rewrite get_insert_eq | done].
Qed.

(** The text of 3001 letters: the API gets 3000 of them, the document row
    all 3001. *)
Lemma full_text_witness :
  exists document rest,
    effects (analyzeText all_ok) (page_with pdf long_text)
    = ShowLoading :: ApiText (take 3000 (trim long_text))
        :: DocumentsInsert document :: rest
    /\ document !! "text_content" = Some (VStr (trim long_text)).
Proof.
  destruct (full_text_is_persisted all_ok (page_with pdf long_text) long_text api_payload)
    as (document & rest & Heff & Hcontent & _).
  - reflexivity.
  - rewrite long_text_trimmed. discriminate.
  - reflexivity.
  - reflexivity.
  - reflexivity.
  - exists document, rest. split; [exact Heff | exact Hcontent].
Defined.

End WorkflowProperties.

(** * Properties of the offline cache worker *)

Section WorkerProperties.
Import ServiceWorker.

Variable network : string -> option response.
Variable root : string.

(** Every request is answered by the first listener: it always calls
    [respondWith], so the fallback listener never settles a response. *)
Lemma dispatch_is_routing (req : request) :
  dispatch (fetch_listeners network root) req
  = routing_listener network req.
Proof. unfold fetch_listeners, routing_listener. simpl. by destruct (includes _ _). Qed.


(** A stored copy is in the cache of that name. *)
Lemma caches_open_put name u r (cs : cache_storage) :
  caches_open name (caches_put name u r cs) !! u = Some r.
Proof.
  induction cs as [|[n c] cs IH]; simpl.
  - rewrite String.eqb_refl. apply lookup_singleton_eq.
  - destruct (String.eqb n name) eqn:Hn; simpl; rewrite Hn; [|done].
    apply lookup_insert_eq.
Qed.

(** A URL that no cache holds is not in the cache of any name. *)
Lemma caches_match_open name u (cs : cache_storage) :
  caches_match cs u = None -> caches_open name cs !! u = None.
Proof.
  induction cs as [|[n c] cs IH]; simpl; [done|].
  destruct (c !! u) eqn:Hc; [done|]. intros Hm.
  destruct (String.eqb n name); auto.
Qed.

(** ** C7 *)

(** C7. A request that is not an API call and is in no cache is fetched from
    the network, and the response is handed to the page; a copy is in the
    current cache afterwards exactly when the response has status 200 and
    type [basic]; any other response (opaque, not 200) leaves the caches as
    they were. *)
Theorem uncached_asset_stored_iff_basic_200 (req : request) (s : sw_state) (r : response) :
  includes "/api/" (url req) = false ->
  caches_match (caches s) (url req) = None ->
  network (url req) = Some r ->
  (serve network root req s).1 = Some r
  /\ fetched (serve network root req s).2 = (fetched s ++ [url req])%list
  /\ (caches_open CACHE_NAME (caches (serve network root req s).2) !! url req = Some r
      <-> status r = 200 /\ type r = Basic)
  /\ (~ (status r = 200 /\ type r = Basic) ->
      caches (serve network root req s).2 = caches s).
Proof.
  intros Hapi Hmiss Hnet.
  assert (Hserve : serve network root req s
                   = (Some r,
                      SwState (if (status r =? 200) && bool_decide (type r = Basic)
                               then caches_put CACHE_NAME (url req) r (caches s)
                               else caches s)
                              (fetched s ++ [url req]))).
  { unfold serve. rewrite dispatch_is_routing. unfold routing_listener, fetch.
    rewrite Hapi, Hmiss, Hnet.
    by destruct (status r =? 200), (bool_decide (type r = Basic)). }
  rewrite Hserve. cbn [fst snd caches fetched].
  pose proof (caches_match_open CACHE_NAME _ _ Hmiss) as Hopen.
  destruct (Z.eqb_spec (status r) 200) as [Hs|Hs];
    destruct (bool_decide_reflect (type r = Basic)) as [Ht|Ht]; cbn [andb];
    repeat split; try done; try tauto.
  all: try (intros _; apply caches_open_put).
  all: try (by rewrite Hopen).
  all: match goal with
       | H : caches_open _ _ !! _ = Some _ |- _ => by rewrite Hopen in H
       end.
Qed.

End WorkerProperties.

Section WorkerRuns.
Import ServiceWorker.

(** The style sheet, not yet cached, answered 200 by the own origin: it is
    served and a copy is in the current cache. *)
Lemma uncached_asset_witness :
  (serve online app_root style_sheet installed).1 = Some style_response
  /\ caches_open CACHE_NAME (caches (serve online app_root style_sheet installed).2)
       !! url style_sheet = Some style_response.
Proof.
  destruct (uncached_asset_stored_iff_basic_200 online app_root style_sheet installed
              style_response) as (Hserved & _ & Hcopy & _);
    [by vm_compute | by vm_compute | reflexivity |].
  split; [exact Hserved|]. apply Hcopy. split; reflexivity.
Defined.

(** ** C6 *)

(** C6. Offline, a navigation to a page that is not itself in the cache gets
    a network error although the root document is cached: the routing
    listener has answered the event, the fallback never does. *)
Theorem offline_navigation_gets_network_error :
  mode history_page = Navigate
  /\ offline (url history_page) = None
  /\ caches_match (caches installed) app_root = Some root_document
  /\ (serve offline app_root history_page installed).1 = None.
Proof. repeat split; vm_compute; reflexivity. Qed.

End WorkerRuns.

(** * Further properties of the upload/analysis workflow *)

Ltac case_head t :=
  lazymatch t with
  | match _ with _ => _ end => idtac
  | ?f _ => case_head f
  end.

(** The term whose value the evaluation of [t] waits for. *)
Ltac blocker t k :=
  lazymatch t with
  | match ?s with _ => _ end => blocker s k
  | ?f ?a => first [ case_head f; blocker f k | k t ]
  | _ => k t
  end.

(** Case analysis on what blocks the run in the goal. *)
Ltac split_path :=
  match goal with
  | |- context [match ?s with _ => _ end] =>
      blocker s ltac:(fun x => destruct x eqn:?)
  end.

Ltac exec_more :=
  exec; rewrite ?get_insert_eq, ?get_insert_ne, ?get_insertData_document_id,
    ?filePath_truthy by done;
  cbv beta iota delta [Workflow.deletedItems Workflow.storage
                       Workflow.documents_deleted Workflow.analyses_deleted];
  cbn [app].

(** All the paths of the run in the goal. *)
Ltac all_paths := repeat (exec_more; try split_path).

Section UploadPaths.
Import Workflow.

Ltac agree keys :=
  let k := fresh "k" in let Hk := fresh "Hk" in
  intros k Hk; unfold keys in Hk;
  rewrite !not_elem_of_cons in Hk; destruct Hk as (? & ? & ? & ? & _);
  by rewrite ?lookup_delete_ne, ?lookup_insert_ne by done.

(** Every path of [uploadFile], by case analysis on the file input and on
    each answer of the API and of the store. *)
Lemma uploadFile_paths (E : env) (w : world) :
  upload_report E w (invoke (uploadFile E) w).
Proof.
  destruct E, w. unfold invoke, uploadFile.
  all_paths.
  all: unfold upload_report, selected;
    cbn [fst snd trace fileInput currentFile currentAnalysisData resultModal
         api_upload supabaseInitialized supabaseClient remote];
    repeat match goal with H : (_ >? _) = _ |- _ => rewrite H; clear H end;
    cbn [List.filter is_loading is_api is_store_call shown last length app];
    repeat match goal with |- context [if ?ok then _ else _] => is_var ok; destruct ok end;
    repeat split; try reflexivity; try (by repeat constructor).
  all: repeat constructor; agree remote_ids.
Qed.

(** Every path of [analyzeText]. *)
Lemma analyzeText_paths (E : env) (w : world) :
  text_report E w (invoke (analyzeText E) w).
Proof.
  destruct E, w. unfold invoke, analyzeText.
  all_paths.
  all: unfold text_report, entered_text;
    cbn [fst snd trace medicalText currentAnalysisData resultModal
         api_text supabaseInitialized remote];
    repeat match goal with H : trim _ = _ |- _ => rewrite H; clear H end;
    cbn [List.filter is_loading is_api is_store_call shown last length app];
    repeat match goal with |- context [if ?ok then _ else _] => is_var ok; destruct ok end;
    repeat split; try reflexivity; try (by repeat constructor).
  all: repeat constructor; agree text_fields.
Qed.

End UploadPaths.

Section FurtherWorkflowProperties.
Import Workflow.

(** ** White space *)

Lemma trimStart_nil (s : text) : trimStart s = [] <-> forallb is_space s = true.
Proof.
  induction s as [|c s IH]; simpl; [done|].
  destruct (is_space c); simpl; [exact IH | split; discriminate].
Qed.

Lemma trimStart_spaces (s : text) :
  forallb is_space (trimStart s) = true -> trimStart s = [].
Proof.
  induction s as [|c s IH]; simpl; [done|].
  destruct (is_space c) eqn:Hc; [exact IH|].
  simpl. rewrite Hc. discriminate.
Qed.

(** A string trims to the empty string exactly when it holds white space
    only. *)
Lemma trim_nil (s : text) : trim s = [] <-> forallb is_space s = true.
Proof.
  split; [|apply trim_spaces].
  unfold trim, trimEnd. intros H.
  apply (f_equal (@rev N)) in H. rewrite rev_involutive in H. simpl in H.
  apply trimStart_nil in H. rewrite forallb_forall in H.
  apply trimStart_nil, trimStart_spaces. apply forallb_forall.
  intros c Hc. apply H. by apply in_rev in Hc.
Qed.

(** ** uploadFile on every path *)

(** X1. [uploadFile] and [analyzeText] handle every failure themselves: no
    answer of the API or of the remote store makes an invocation end in an
    exception, and neither changes the two flags of the store client. *)
Theorem operations_never_reject (E : env) (w : world) :
  (invoke (uploadFile E) w).1 = Return tt
  /\ (invoke (analyzeText E) w).1 = Return tt
  /\ supabaseInitialized (after (uploadFile E) w) = supabaseInitialized w
  /\ supabaseClient (after (uploadFile E) w) = supabaseClient w.
Proof.
  destruct (uploadFile_paths E w) as (Hu & _ & _ & _ & Hi & Hc & _).
  destruct (analyzeText_paths E w) as (Ht & _).
  done.
Qed.

(** X2. [uploadFile] shows the loading indicator exactly when a file passes
    the validation, once, and hides it once afterwards, on every path. *)
Theorem upload_loading_indicator_balanced (E : env) (w : world) :
  List.filter is_loading (effects (uploadFile E) w)
  = match selected w with
    | Some _ => [ShowLoading; HideLoading]
    | None => []
    end.
Proof. by destruct (uploadFile_paths E w) as (_ & H & _). Qed.

(** X3. [uploadFile] sends the file to the analysis API exactly once when it
    passes the validation, whatever the upload to the store did, and never
    otherwise. *)
Theorem upload_calls_api_exactly_once (E : env) (w : world) :
  List.filter is_api (effects (uploadFile E) w)
  = match selected w with
    | Some f => [ApiUpload f]
    | None => []
    end.
Proof. by destruct (uploadFile_paths E w) as (_ & _ & H & _). Qed.

(** X4. When persistence is not initialised, [uploadFile] makes no call to
    the remote store and leaves it as it was; it never throws. *)
Theorem upload_without_persistence_leaves_store_alone (E : env) (w : world) :
  supabaseInitialized w = false ->
  (invoke (uploadFile E) w).1 = Return tt
  /\ Forall (fun e => is_store_call e = false) (effects (uploadFile E) w)
  /\ remote (after (uploadFile E) w) = remote w.
Proof.
  intros Hoff. destruct (uploadFile_paths E w) as (Hret & _ & _ & H & _).
  rewrite Hoff in H. by destruct H.
Qed.


(** X6. When the file passes the validation and the API call fails (the
    request rejects, the body is no JSON, or the response is not OK), no
    result is shown, the file input keeps its file, and the last thing shown
    is the error: the network error, or the payload's [error] field, or
    [Upload failed]. *)
Theorem upload_api_failure_reported (E : env) (w : world) f message :
  selected w = Some f ->
  upload_failure (api_upload E) = Some message ->
  shown (effects (uploadFile E) w) = []
  /\ last (effects (uploadFile E) w) = Some (ShowToast message Error)
  /\ fileInput (after (uploadFile E) w) = fileInput w.
Proof.
  intros Hf Hfail.
  destruct (uploadFile_paths E w) as (_ & _ & _ & _ & _ & _ & H).
  rewrite Hf in H.
  destruct (api_upload E) as [m|[] [m|p]]; simpl in Hfail; try discriminate;
    injection Hfail as <-; exact H.
Qed.

(** ** analyzeText on every path *)

(** X7. [analyzeText] calls the analysis API exactly once when the text area
    holds a character that is not white space, and never otherwise; the
    loading indicator is shown and hidden once around that call. *)
Theorem text_api_called_iff_not_blank (E : env) (w : world) entered :
  medicalText w = Some entered ->
  List.filter is_api (effects (analyzeText E) w)
  = (if forallb is_space entered then []
     else [ApiText (take 3000 (trim entered))])
  /\ List.filter is_loading (effects (analyzeText E) w)
     = (if forallb is_space entered then [] else [ShowLoading; HideLoading]).
Proof.
  intros Hin.
  destruct (analyzeText_paths E w) as (_ & Hload & Hapi & _).
  unfold entered_text in *. rewrite Hin in *.
  destruct (forallb is_space entered) eqn:Hblank.
  - apply trim_nil in Hblank. rewrite Hblank in *. done.
  - destruct (trim entered) eqn:Ht; [|done].
    apply trim_nil in Ht. congruence.
Qed.


End FurtherWorkflowProperties.

Section FurtherWorkflowWitnesses.
Import Workflow.

Lemma upload_without_persistence_witness :
  supabaseInitialized page_offline = false
  /\ (invoke (uploadFile all_ok) page_offline).1 = Return tt
  /\ Forall (fun e => is_store_call e = false) (effects (uploadFile all_ok) page_offline)
  /\ remote (after (uploadFile all_ok) page_offline) = remote page_offline.
Proof.
  split; [reflexivity|].
  apply (upload_without_persistence_leaves_store_alone all_ok page_offline); reflexivity.
Defined.


Lemma upload_api_failure_witness :
  selected page = Some pdf
  /\ shown (effects (uploadFile api_refuses) page) = []
  /\ last (effects (uploadFile api_refuses) page)
     = Some (ShowToast (VStr (lit "Unsupported file type")) Error)
  /\ fileInput (after (uploadFile api_refuses) page) = fileInput page.
Proof.
  split; [reflexivity|].
  apply (upload_api_failure_reported api_refuses page pdf
           (VStr (lit "Unsupported file type"))); reflexivity.
Defined.

Lemma text_api_called_witness :
  (List.filter is_api (effects (analyzeText all_ok) page)
   = [ApiText (lit "Glucose: 98 mg/dL")]
   /\ List.filter is_loading (effects (analyzeText all_ok) page)
      = [ShowLoading; HideLoading])
  /\ (List.filter is_api (effects (analyzeText all_ok) (page_with pdf (lit "  "))) = []
      /\ List.filter is_loading (effects (analyzeText all_ok) (page_with pdf (lit "  ")))
         = []).
Proof.
  split.
  - apply (text_api_called_iff_not_blank all_ok page (lit "Glucose: 98 mg/dL")).
    reflexivity.
  - apply (text_api_called_iff_not_blank all_ok (page_with pdf (lit "  ")) (lit "  ")).
    reflexivity.
Defined.


End FurtherWorkflowWitnesses.

Section TextCleanupProperties.
Import Workflow.

(** The fields [saveTextAnalysisToDatabase] copies from the document row. *)
Lemma textDocument_filename (E : env) (t : text) :
  get (textDocument E t) "filename"
  = VStr (lit "text-input-" ++ decimal (date_now E) ++ lit ".txt")%list.
Proof. unfold textDocument. by rewrite get_insert_eq. Qed.

Lemma textDocument_file_size (E : env) (t : text) :
  get (textDocument E t) "file_size" = VNum (utf8_size t).
Proof. unfold textDocument. by rewrite get_insert_ne, get_insert_eq. Qed.

(** The whole run of [analyzeText] when it reaches the clean-up and neither
    deletion promise rejects. *)
Lemma analyzeText_cleanup_run (E : env) (w : world) t did aid payload :
  reaches_text_cleanup E w t did aid payload ->
  rejected (analyses_delete E) = false ->
  rejected (documents_delete E) = false ->
  let document := textDocument E t in
  let analysis := insertData E (text_payload E t payload) did in
  effects (analyzeText E) w
  = ([ShowLoading; ApiText (take 3000 t); DocumentsInsert document;
      AnalysesInsert analysis; Delay 1000; AnalysesDelete aid; DocumentsDelete did;
      cleaned_up_toast]
     ++ (if resultModal w
         then [ShowResults (delete "analysis_db_id" (text_payload E t payload))]
         else [])
     ++ [HideLoading])%list
  /\ remote (after (analyzeText E) w)
     = text_cleanup_store E did aid
         (insert_analysis analysis (Some aid)
            (insert_document document (Some did) (remote w))).
Proof.
  intros (Ht & Hi & Hc & Hapi & Hdi & Hdid & Hai) Had Hdd.
  unfold entered_text in Ht.
  destruct w as [? ? ? ? ? area modal ? ? ?]; simpl in Ht, Hi, Hc; subst.
  destruct area as [entered|]; [|discriminate].
  destruct (trim entered) as [|c r] eqn:Htrim; [discriminate|].
  injection Ht as <-.
  destruct E as [? ? ? ? ? ? ? ? ? ? ad dd]; simpl in Hapi, Hdi, Hai, Had, Hdd; subst.
  unfold effects, after, invoke, analyzeText, text_cleanup_store, cleaned_up_toast.
  exec. rewrite Htrim. exec.
  rewrite ?get_insert_eq, ?(get_insert_ne _ "id" "document_id"),
    ?(get_insert_ne _ "id" "filename"), ?(get_insert_ne _ "id" "file_size"),
    ?get_insertData_document_id by done.
  rewrite !textDocument_filename, !textDocument_file_size, Hdid.
  destruct ad as [?|?|[]], dd as [?|?|[]]; try discriminate; exec;
    unfold text_payload; cbn [date_now];
    rewrite ?delete_insert_eq;
    destruct modal; exec; split; try reflexivity.
Qed.

End TextCleanupProperties.

Section TextCleanupTheorems.
Import Workflow.

(** X9. When [analyzeText] reaches its clean-up and both deletions are
    answered with success, it deletes the analysis row and then the document
    row, and no row of either id is left in the store. *)
Theorem text_rows_deleted_after_analysis (E : env) (w : world) t did aid payload :
  reaches_text_cleanup E w t did aid payload ->
  succeeded (analyses_delete E) = true ->
  succeeded (documents_delete E) = true ->
  List.filter is_deletion (effects (analyzeText E) w)
  = [AnalysesDelete aid; DocumentsDelete did]
  /\ Forall (fun row => get row "id" <> did)
       (documents (remote (after (analyzeText E) w)))
  /\ Forall (fun row => get row "id" <> aid)
       (analyses (remote (after (analyzeText E) w))).
Proof.
  intros Hreach Had Hdd.
  destruct (analyzeText_cleanup_run E w t did aid payload Hreach) as [-> ->].
  - by destruct (analyses_delete E).
  - by destruct (documents_delete E).
  - unfold text_cleanup_store. rewrite Had, Hdd. cbn [documents analyses delete_document delete_analysis].
    split; [by destruct (resultModal w)|].
    split; apply delete_rows_absent.
Qed.

Lemma text_rows_deleted_witness :
  List.filter is_deletion (effects (analyzeText all_ok) page)
  = [AnalysesDelete (VNum 9); DocumentsDelete (VNum 7)]
  /\ Forall (fun row => get row "id" <> VNum 7)
       (documents (remote (after (analyzeText all_ok) page)))
  /\ Forall (fun row => get row "id" <> VNum 9)
       (analyses (remote (after (analyzeText all_ok) page))).
Proof.
  apply (text_rows_deleted_after_analysis all_ok page (lit "Glucose: 98 mg/dL")
           (VNum 7) (VNum 9) api_payload); [|reflexivity|reflexivity].
  unfold reaches_text_cleanup. repeat split; reflexivity.
Defined.

(** X10. The text clean-up does not look at the answers of its deletions: when
    both resolve with an error, [analyzeText] still announces that the
    records were cleaned up, and the document row with the whole text and
    the analysis row are still in the store. *)
Theorem text_cleanup_announced_although_refused
  (E : env) (w : world) t did aid payload m1 m2 :
  reaches_text_cleanup E w t did aid payload ->
  analyses_delete E = Failed m1 ->
  documents_delete E = Failed m2 ->
  cleaned_up_toast ∈ effects (analyzeText E) w
  /\ (exists row, row ∈ documents (remote (after (analyzeText E) w))
        /\ get row "id" = did /\ get row "text_content" = VStr t)
  /\ (exists row, row ∈ analyses (remote (after (analyzeText E) w))
        /\ get row "id" = aid).
Proof.
  intros Hreach Had Hdd.
  destruct (analyzeText_cleanup_run E w t did aid payload Hreach) as [-> ->].
  - by rewrite Had.
  - by rewrite Hdd.
  - unfold text_cleanup_store. rewrite Had, Hdd.
    cbn [succeeded documents analyses insert_document insert_analysis with_id].
    split; [|split].
    + rewrite elem_of_app. left. rewrite !elem_of_cons. tauto.
    + eexists. split; [apply elem_of_app; right; apply list_elem_of_singleton; reflexivity|].
      split; [apply get_insert_eq|].
      rewrite get_insert_ne by done. unfold get.
      by rewrite textDocument_text_content.
    + eexists. split; [apply elem_of_app; right; apply list_elem_of_singleton; reflexivity|].
      apply get_insert_eq.
Qed.

Lemma text_cleanup_announced_witness :
  cleaned_up_toast ∈ effects (analyzeText deletes_refused) page
  /\ (exists row, row ∈ documents (remote (after (analyzeText deletes_refused) page))
        /\ get row "id" = VNum 7 /\ get row "text_content" = VStr (lit "Glucose: 98 mg/dL"))
  /\ (exists row, row ∈ analyses (remote (after (analyzeText deletes_refused) page))
        /\ get row "id" = VNum 9).
Proof.
  apply (text_cleanup_announced_although_refused deletes_refused page
           (lit "Glucose: 98 mg/dL") (VNum 7) (VNum 9) api_payload
           (lit "permission denied") (lit "permission denied"));
    [|reflexivity|reflexivity].
  unfold reaches_text_cleanup. repeat split; reflexivity.
Defined.

(** X11. When the document row of a text was inserted and the insert of the
    analysis row fails, [analyzeText] makes no deletion call: the document
    row with the whole text stays in the store, and the failure is shown. *)
Theorem text_document_left_when_analysis_insert_fails
  (E : env) (w : world) t did payload :
  entered_text w = Some t ->
  supabaseInitialized w = true -> supabaseClient w = true ->
  api_text E = Responded true (inr payload) ->
  documents_insert E = Succeeded (Some did) ->
  returns_row (analyses_insert E) = false ->
  Forall (fun e => is_deletion e = false) (effects (analyzeText E) w)
  /\ (exists row, row ∈ documents (remote (after (analyzeText E) w))
        /\ get row "id" = did /\ get row "text_content" = VStr t)
  /\ (exists message,
        ShowToast (VStr (lit "Text analysis save failed: " ++ message)%list) Error
        ∈ effects (analyzeText E) w).
Proof.
  intros Ht Hi Hc Hapi Hdi Hai. unfold entered_text in Ht.
  destruct w as [? ? ? ? ? area modal ? ? ?]; simpl in Ht, Hi, Hc; subst.
  destruct area as [entered|]; [|discriminate].
  destruct (trim entered) as [|c r] eqn:Htrim; [discriminate|].
  injection Ht as <-.
  destruct E as [? ? ? ? ? ? ? ? ai ? ? ?]; simpl in Hapi, Hdi, Hai; subst.
  unfold effects, after, invoke, analyzeText.
  exec. rewrite Htrim. exec.
  destruct ai as [?|?|[?|]]; try discriminate; exec; destruct modal; exec.
  all: split; [by repeat constructor|]; split;
    [eexists; split; [apply elem_of_app; right; apply list_elem_of_singleton; reflexivity|];
     split; [apply get_insert_eq|];
     rewrite get_insert_ne by done; unfold get; by rewrite textDocument_text_content
    |eexists; rewrite !elem_of_cons; tauto].
Qed.

Lemma text_document_left_witness :
  Forall (fun e => is_deletion e = false) (effects (analyzeText analysis_insert_refused) page)
  /\ (exists row, row ∈ documents (remote (after (analyzeText analysis_insert_refused) page))
        /\ get row "id" = VNum 7 /\ get row "text_content" = VStr (lit "Glucose: 98 mg/dL"))
  /\ (exists message,
        ShowToast (VStr (lit "Text analysis save failed: " ++ message)%list) Error
        ∈ effects (analyzeText analysis_insert_refused) page).
Proof.
  apply (text_document_left_when_analysis_insert_fails analysis_insert_refused page
           (lit "Glucose: 98 mg/dL") (VNum 7) api_payload); reflexivity.
Defined.

End TextCleanupTheorems.

Section StoreFunctionProperties.
Import Workflow.

(** X12. Without an initialised client each of the four store functions
    throws [Supabase not initialized] before any call, and changes
    nothing. *)
Theorem store_functions_refuse_without_client
  (E : env) (w : world) f fileId analysisId storagePath originalText :
  supabaseInitialized w = false \/ supabaseClient w = false ->
  uploadToDatabase E f w = (Throw (lit "Supabase not initialized"), w)
  /\ saveAnalysisToDatabase E fileId w = (Throw (lit "Supabase not initialized"), w)
  /\ saveTextAnalysisToDatabase E originalText w
     = (Throw (lit "Supabase not initialized"), w)
  /\ deleteAllRecords E fileId analysisId storagePath w
     = (Throw (lit "Supabase not initialized"), w).
Proof.
  intros H.
  destruct w as [initialized client ? ? ? ? ? ? ? ?]; simpl in H.
  destruct initialized, client; destruct H as [H|H]; try discriminate;
    repeat split; reflexivity.
Qed.

Lemma store_functions_refuse_witness :
  uploadToDatabase all_ok pdf page_offline
  = (Throw (lit "Supabase not initialized"), page_offline)
  /\ saveAnalysisToDatabase all_ok (VNum 7) page_offline
     = (Throw (lit "Supabase not initialized"), page_offline)
  /\ saveTextAnalysisToDatabase all_ok (lit "Glucose") page_offline
     = (Throw (lit "Supabase not initialized"), page_offline)
  /\ deleteAllRecords all_ok (VNum 7) (VNum 9) (VStr stored_path) page_offline
     = (Throw (lit "Supabase not initialized"), page_offline).
Proof.
  apply (store_functions_refuse_without_client all_ok page_offline pdf
           (VNum 7) (VNum 9) (VStr stored_path) (lit "Glucose")).
  left. reflexivity.
Defined.

(** X13. With an initialised client [deleteAllRecords] never throws, whatever
    the three deletions answer; it makes a call only for an argument that is
    present, and it only removes: every stored object and every row of the
    store afterwards was there before. *)
Theorem cleanup_never_throws_and_only_removes
  (E : env) (w : world) fileId analysisId storagePath :
  supabaseInitialized w = true -> supabaseClient w = true ->
  let s' := remote (after (deleteAllRecords E fileId analysisId storagePath) w) in
  (exists r, (invoke (deleteAllRecords E fileId analysisId storagePath) w).1 = Return r)
  /\ effects (deleteAllRecords E fileId analysisId storagePath) w
     = cleanup_calls fileId analysisId storagePath
  /\ bucket s' ⊆ bucket (remote w)
  /\ documents s' `sublist_of` documents (remote w)
  /\ analyses s' `sublist_of` analyses (remote w).
Proof.
  intros Hi Hc. unfold effects, after, invoke.
  rewrite deleteAllRecords_run by (by destruct w).
  destruct w as [? ? ? ? ? ? ? s ? ?]. cbn.
  split; [by eexists|]. split; [reflexivity|].
  unfold cleanup_store.
  destruct (storage _), (analyses_deleted _), (documents_deleted _);
    destruct storagePath; cbn;
    repeat split; try reflexivity;
    try apply delete_subseteq; try apply sublist_filter.
Qed.

Lemma cleanup_never_throws_witness :
  (exists r, (invoke (deleteAllRecords remove_refused (VNum 7) VNull (VStr stored_path)) page).1
             = Return r)
  /\ effects (deleteAllRecords remove_refused (VNum 7) VNull (VStr stored_path)) page
     = [StorageRemove (VStr stored_path); DocumentsDelete (VNum 7)].
Proof.
  destruct (cleanup_never_throws_and_only_removes remove_refused page
              (VNum 7) VNull (VStr stored_path)) as (Hret & Heff & _);
    [reflexivity | reflexivity |].
  split; [exact Hret | exact Heff].
Defined.

End StoreFunctionProperties.

Section ApiFailureProperties.
Import Workflow.

(** X14. When the persistence step stored the file and its document row and
    the API call then fails (the request rejects, the body is no JSON, or
    the response is not OK), [uploadFile] makes no deletion call: the file
    and the document row stay in the remote store. *)
Theorem stored_file_left_when_api_fails (E : env) (w : world) f fid message :
  selected w = Some f ->
  supabaseInitialized w = true -> supabaseClient w = true ->
  storage_upload E = Succeeded tt ->
  documents_insert E = Succeeded (Some fid) ->
  upload_failure (api_upload E) = Some message ->
  let path := filePath (date_now E) (name f) in
  Forall (fun e => is_deletion e = false) (effects (uploadFile E) w)
  /\ bucket (remote (after (uploadFile E) w)) !! path = Some f
  /\ (exists row, row ∈ documents (remote (after (uploadFile E) w))
        /\ get row "id" = fid /\ get row "storage_path" = VStr path).
Proof.
  intros Hsel Hi Hc Hsu Hdi Hfail path. unfold selected in Hsel.
  destruct w as [? ? ? ? input ? ? ? ? ?]; simpl in Hsel, Hi, Hc; subst.
  destruct input as [[|f' rest]|]; try discriminate.
  destruct (size f' >? 10 * 1024 * 1024) eqn:Hs; [discriminate|].
  injection Hsel as ->.
  destruct E as [? ? ? ? ? ? api ? ? ? ? ?]; simpl in Hsu, Hdi, Hfail; subst.
  subst path. unfold effects, after, invoke, uploadFile. exec. rewrite Hs. exec.
  destruct api as [m|[] [m|p]]; try discriminate; exec.
  all: split; [by repeat constructor|]; split; [apply lookup_insert_eq|].
  all: eexists; split;
    [apply elem_of_app; right; apply list_elem_of_singleton; reflexivity|].
  all: split; [apply get_insert_eq|].
  all: rewrite get_insert_ne by done; unfold documentData;
    by rewrite !get_insert_ne, get_insert_eq by done.
Qed.

Lemma stored_file_left_witness :
  Forall (fun e => is_deletion e = false) (effects (uploadFile api_refuses) page)
  /\ bucket (remote (after (uploadFile api_refuses) page)) !! stored_path = Some pdf
  /\ (exists row, row ∈ documents (remote (after (uploadFile api_refuses) page))
        /\ get row "id" = VNum 7 /\ get row "storage_path" = VStr stored_path).
Proof.
  apply (stored_file_left_when_api_fails api_refuses page pdf (VNum 7)
           (VStr (lit "Unsupported file type"))); reflexivity.
Defined.

End ApiFailureProperties.

Section PathProperties.
Import Workflow.

(** ** Splitting at a separator *)

Lemma split_not_nil (sep : N) (s : text) : split sep s <> [].
Proof.
  induction s as [|c r IH]; simpl; [done|].
  destruct (c =? sep)%N; [done|]. by destruct (split sep r).
Qed.

Lemma split_app (sep : N) (a b : text) :
  split sep (a ++ sep :: b)%list = (split sep a ++ split sep b)%list.
Proof.
  induction a as [|c a IH]; simpl.
  - by rewrite N.eqb_refl.
  - rewrite IH. destruct (c =? sep)%N; [done|].
    pose proof (split_not_nil sep a). by destruct (split sep a).
Qed.

Lemma split_none (sep : N) (s : text) :
  Forall (fun c => c <> sep) s -> split sep s = [s].
Proof.
  induction 1 as [|c r Hc _ IH]; simpl; [done|].
  apply N.eqb_neq in Hc. by rewrite Hc, IH.
Qed.

(** ** The sanitised base name *)

Ltac by_ranges c :=
  repeat (cbn [andb orb negb];
          match goal with
          | |- context [(?a <=? c)%N] => destruct (N.leb_spec a c)
          | |- context [(c <=? ?b)%N] => destruct (N.leb_spec c b)
          | |- context [(c =? ?b)%N] => destruct (N.eqb_spec c b)
          | |- context [(?a <=? c + ?d)%N] => destruct (N.leb_spec a (c + d))
          | |- context [(c + ?d <=? ?b)%N] => destruct (N.leb_spec (c + d) b)
          | |- context [(c + ?d =? ?b)%N] => destruct (N.eqb_spec (c + d) b)
          end);
  cbn [andb orb negb]; intros; try reflexivity; try discriminate; try lia;
  try (subst c; reflexivity).

Lemma toLower_replace_safe (c : N) :
  is_safe (toLower (if is_alnum c then c else underscore)) = true.
Proof.
  destruct (is_alnum c) eqn:Ha; [|reflexivity]. revert Ha.
  unfold is_safe, toLower, is_alnum, underscore. by_ranges c.
Qed.

Lemma toLower_replace_fixed (c : N) :
  is_safe c = true -> toLower (if is_alnum c then c else underscore) = c.
Proof.
  destruct (is_alnum c) eqn:Ha; revert Ha;
    unfold is_safe, toLower, is_alnum, underscore; by_ranges c.
Qed.

(** X15. [safeFileName] keeps the length of its argument, gives digits, small
    letters and underscores only, and leaves such a string as it is. *)
Theorem safeFileName_alphabet (s : text) :
  length (safeFileName s) = length s
  /\ forallb is_safe (safeFileName s) = true
  /\ safeFileName (safeFileName s) = safeFileName s.
Proof.
  unfold safeFileName. split; [apply length_map|].
  assert (Hsafe : forallb is_safe
            (List.map (fun c => toLower (if is_alnum c then c else underscore)) s) = true).
  { apply forallb_forall. intros c Hc. apply in_map_iff in Hc as (c' & <- & _).
    apply toLower_replace_safe. }
  split; [exact Hsafe|].
  rewrite forallb_forall in Hsafe.
  rewrite <- (map_id (List.map _ s)) at 2.
  apply map_ext_in. intros c Hc. by apply toLower_replace_fixed, Hsafe.
Qed.

(** X16. For a file named [base.ext], [ext] not empty and without dot or
    slash, the storage path is [uploads/<timestamp>-<sanitised base>.<ext>]:
    the extension is the one of the name, as it is written. *)
Theorem path_of_name_with_extension (timestamp : Z) (base ext : text) :
  ext <> [] ->
  Forall (fun c => c <> dot) ext ->
  Forall (fun c => c <> slash) ext ->
  fileExt (base ++ dot :: ext)%list = ext
  /\ fileNameWithoutExt (base ++ dot :: ext)%list = base
  /\ filePath timestamp (base ++ dot :: ext)%list
     = (lit "uploads/" ++ decimal timestamp ++ lit "-"
        ++ safeFileName base ++ lit "." ++ ext)%list.
Proof.
  intros Hne Hdot Hslash.
  assert (Hsplit : split dot (base ++ dot :: ext)%list = (split dot base ++ [ext])%list).
  { by rewrite split_app, (split_none dot ext). }
  assert (Hext : fileExt (base ++ dot :: ext)%list = ext).
  { unfold fileExt. rewrite Hsplit, last_snoc. simpl. by destruct ext. }
  assert (Hbase : fileNameWithoutExt (base ++ dot :: ext)%list = base).
  { unfold fileNameWithoutExt. rewrite Hsplit.
    pose proof (split_not_nil dot base) as Hb.
    destruct (split dot base) as [|h [|h' t]] eqn:Hsb; [done| |].
    all: cbn [app]; rewrite <- ?app_comm_cons.
    all: change (h :: [ext])%list with ([h] ++ [ext])%list;
      rewrite ?app_comm_cons, last_snoc;
      change (default [] (Some ext)) with ext.
    all: rewrite bool_decide_eq_false_2 by done; cbn [negb andb].
    all: assert (Hs : forallb (fun c => negb (c =? slash)%N) ext = true)
        by (apply forallb_forall; intros c Hc;
            rewrite Forall_forall in Hslash;
            apply negb_true_iff, N.eqb_neq, Hslash, list_elem_of_In, Hc).
    all: rewrite Hs, length_app; cbn [length].
    all: replace (length base + S (length ext) - S (length ext))%nat
           with (length base) by lia.
    all: by rewrite take_app_length. }
  split; [exact Hext|]. split; [exact Hbase|].
  unfold filePath. by rewrite Hext, Hbase.
Qed.

Lemma path_of_name_with_extension_witness :
  fileExt report_name = lit "PDF"
  /\ fileNameWithoutExt report_name = lit "Lab Report (final).v2"
  /\ filePath 1700000000000 report_name
     = lit "uploads/1700000000000-lab_report__final__v2.PDF".
Proof.
  apply (path_of_name_with_extension 1700000000000
           (lit "Lab Report (final).v2") (lit "PDF"));
    [discriminate | by repeat constructor | by repeat constructor].
Defined.

(** X17. A name without a dot is its own extension: nothing is cut from it,
    and the storage path ends in the name as it is written, after the dot;
    only the empty name gets the extension [bin]. *)
Theorem path_of_name_without_dot (timestamp : Z) (name : text) :
  Forall (fun c => c <> dot) name ->
  fileNameWithoutExt name = name
  /\ fileExt name = (match name with [] => lit "bin" | _ => name end)
  /\ (name <> [] ->
      filePath timestamp name
      = (lit "uploads/" ++ decimal timestamp ++ lit "-"
         ++ safeFileName name ++ lit "." ++ name)%list).
Proof.
  intros Hdot.
  assert (Hbase : fileNameWithoutExt name = name).
  { unfold fileNameWithoutExt. by rewrite (split_none dot name). }
  assert (Hext : fileExt name = match name with [] => lit "bin" | _ => name end).
  { unfold fileExt. rewrite (split_none dot name) by done. by destruct name. }
  split; [exact Hbase|]. split; [exact Hext|].
  intros Hne. unfold filePath. rewrite Hbase, Hext. by destruct name.
Qed.

Lemma path_of_name_without_dot_witness :
  fileNameWithoutExt (lit "README") = lit "README"
  /\ fileExt (lit "README") = lit "README"
  /\ filePath 5 (lit "README") = lit "uploads/5-readme.README".
Proof.
  destruct (path_of_name_without_dot 5 (lit "README")) as (Hbase & Hext & Hpath).
  - by repeat constructor.
  - split; [exact Hbase|]. split; [exact Hext|]. apply Hpath. discriminate.
Defined.

End PathProperties.

Section TimestampProperties.
Import Workflow.

Lemma lit_inj (s s' : string) : lit s = lit s' -> s = s'.
Proof.
  unfold lit. intros H.
  rewrite <- (string_of_list_ascii_of_string s), <- (string_of_list_ascii_of_string s').
  f_equal. revert H.
  generalize (list_ascii_of_string s) (list_ascii_of_string s').
  induction l as [|a l IH]; intros [|a' l']; simpl; try done.
  intros [= Ha Hl]. f_equal; [|by apply IH].
  by rewrite <- (ascii_N_embedding a), <- (ascii_N_embedding a'), Ha.
Qed.

Lemma lit_String (a : ascii) (s : string) : lit (String a s) = N_of_ascii a :: lit s.
Proof. reflexivity. Qed.

Lemma pretty_N_char_digit (x : N) : is_digit (N_of_ascii (pretty_N_char x)) = true.
Proof. unfold pretty_N_char. repeat case_match; reflexivity. Qed.

Lemma pretty_N_go_digits (x : N) (s : string) :
  forallb is_digit (lit s) = true -> forallb is_digit (lit (pretty_N_go x s)) = true.
Proof.
  revert s. induction (N.lt_wf_0 x) as [x _ IH]. intros s Hs.
  destruct (decide (x = 0%N)) as [->|Hx]; [by rewrite pretty_N_go_0|].
  rewrite pretty_N_go_step by lia.
  apply IH; [apply N.div_lt; lia|].
  rewrite lit_String. cbn [forallb]. by rewrite pretty_N_char_digit, Hs.
Qed.

(** The decimal numeral of a non-negative integer has digits only. *)
Lemma decimal_digits (n : Z) : 0 <= n -> forallb is_digit (decimal n) = true.
Proof.
  intros Hn. unfold decimal. destruct n as [|p|p]; [reflexivity| |lia].
  change (pretty (Z.pos p)) with (pretty_N_go (N.pos p) "").
  by apply pretty_N_go_digits.
Qed.

Lemma app_pivot_inj {A} (x : A) (l1 l2 r1 r2 : list A) :
  x ∉ l1 -> x ∉ l2 -> (l1 ++ x :: r1 = l2 ++ x :: r2)%list -> l1 = l2.
Proof.
  revert l2. induction l1 as [|a l1 IH]; intros [|b l2] H1 H2; simpl; intros [= ]; subst.
  - done.
  - exfalso. apply H2. left.
  - exfalso. apply H1. left.
  - f_equal. apply IH; [| |done].
    + intros ?. apply H1. by right.
    + intros ?. apply H2. by right.
Qed.

(** X18. Two uploads at different times never get the same storage path,
    whatever the files are called. *)
Theorem storage_paths_differ_across_timestamps (t1 t2 : Z) (name1 name2 : text) :
  0 <= t1 -> 0 <= t2 -> t1 <> t2 ->
  filePath t1 name1 <> filePath t2 name2.
Proof.
  intros H1 H2 Hne Heq. apply Hne. unfold filePath in Heq.
  apply app_inv_head in Heq.
  change (lit "-") with [45%N] in Heq. cbn [app] in Heq.
  assert (Hdash : forall t, 0 <= t -> 45%N ∉ decimal t).
  { intros t Ht Hin. pose proof (decimal_digits t Ht) as Hd.
    rewrite forallb_forall in Hd. apply list_elem_of_In, Hd in Hin. done. }
  apply app_pivot_inj in Heq; [|by apply Hdash..].
  unfold decimal in Heq. apply lit_inj in Heq. by apply (inj pretty) in Heq.
Qed.

Lemma storage_paths_differ_witness :
  filePath 1700000000000 (lit "x.pdf") <> filePath 1700000000001 (lit "x.pdf").
Proof.
  apply (storage_paths_differ_across_timestamps 1700000000000 1700000000001); lia.
Defined.

End TimestampProperties.

(** * Further properties of the offline cache worker *)

Section CacheLemmas.
Import ServiceWorker Lifecycle.

Lemma caches_match_put_other name u u' r (cs : cache_storage) :
  u <> u' -> caches_match (caches_put name u' r cs) u = caches_match cs u.
Proof.
  intros Hne. induction cs as [|[n c] cs IH]; simpl.
  - by rewrite lookup_singleton_ne.
  - destruct (String.eqb n name); simpl.
    + by rewrite lookup_insert_ne.
    + by rewrite IH.
Qed.

Lemma caches_match_put_miss name u r (cs : cache_storage) :
  caches_match cs u = None -> caches_match (caches_put name u r cs) u = Some r.
Proof.
  induction cs as [|[n c] cs IH]; simpl.
  - intros _. by rewrite lookup_singleton_eq.
  - destruct (c !! u) eqn:Hc; [done|]. intros Hm.
    destruct (String.eqb n name); simpl.
    + by rewrite lookup_insert_eq.
    + rewrite Hc. auto.
Qed.

Lemma caches_open_put_other name u u' r (cs : cache_storage) :
  u <> u' -> caches_open name (caches_put name u' r cs) !! u = caches_open name cs !! u.
Proof.
  intros Hne. induction cs as [|[n c] cs IH]; simpl.
  - rewrite String.eqb_refl. by rewrite lookup_singleton_ne.
  - destruct (String.eqb n name) eqn:Hn; simpl; rewrite Hn; [|done].
    by rewrite lookup_insert_ne.
Qed.

Lemma caches_match_app_empty name (cs : cache_storage) u :
  caches_match (cs ++ [(name, ∅)])%list u = caches_match cs u.
Proof.
  induction cs as [|[n c] cs IH]; simpl; [done|]. by rewrite IH.
Qed.

Lemma caches_match_create name (cs : cache_storage) u :
  caches_match (caches_create name cs) u = caches_match cs u.
Proof.
  unfold caches_create. destruct (caches_has name cs); [done|].
  apply caches_match_app_empty.
Qed.

(** What one request can do to the caches: nothing, or one copy of its own
    response under its own URL, which no cache held. *)
Lemma serve_caches network root (req : request) (s : sw_state) :
  caches (serve network root req s).2 = caches s
  \/ (includes "/api/" (url req) = false
      /\ caches_match (caches s) (url req) = None
      /\ exists r, caches (serve network root req s).2
                   = caches_put CACHE_NAME (url req) r (caches s)).
Proof.
  unfold serve. rewrite dispatch_is_routing. unfold routing_listener, fetch.
  destruct (includes "/api/" (url req)).
  - left. by destruct (network (url req)).
  - destruct (caches_match (caches s) (url req)) eqn:Hm; [by left|].
    destruct (network (url req)) as [r|]; [|by left].
    destruct (negb (status r =? 200) || negb (bool_decide (type r = Basic)));
      [by left|].
    right. eauto.
Qed.

Lemma serve_keeps_match network root (req : request) (s : sw_state) u r :
  caches_match (caches s) u = Some r ->
  caches_match (caches (serve network root req s).2) u = Some r.
Proof.
  intros Hu.
  destruct (serve_caches network root req s) as [->|(_ & Hmiss & r' & ->)]; [done|].
  rewrite caches_match_put_other; [done|]. intros ->. congruence.
Qed.

Lemma serve_all_keeps_match root history (s : sw_state) u r :
  caches_match (caches s) u = Some r ->
  caches_match (caches (serve_all root history s)) u = Some r.
Proof.
  revert s. induction history as [|[net req] history IH]; intros s Hu; [done|].
  apply IH. by apply serve_keeps_match.
Qed.

Lemma serve_keeps_api_free network root (req : request) (s : sw_state) :
  api_free (caches s) -> api_free (caches (serve network root req s).2).
Proof.
  intros Hfree u Hu.
  destruct (serve_caches network root req s) as [->|(Hreq & _ & r' & ->)]; [by apply Hfree|].
  rewrite caches_match_put_other; [by apply Hfree|]. intros ->. congruence.
Qed.

Lemma serve_all_keeps_api_free root history (s : sw_state) :
  api_free (caches s) -> api_free (caches (serve_all root history s)).
Proof.
  revert s. induction history as [|[net req] history IH]; intros s Hfree; [done|].
  apply IH. by apply serve_keeps_api_free.
Qed.

(** The deletions of [activate] leave the caches of the current name. *)
Lemma activate_filter (names : list string) (cs : cache_storage) :
  foldl (fun caches cacheName =>
           if negb (String.eqb cacheName CACHE_NAME)
           then caches_delete cacheName caches
           else caches) cs names
  = List.filter (fun entry => String.eqb entry.1 CACHE_NAME
                              || negb (existsb (String.eqb entry.1) names)) cs.
Proof.
  revert cs. induction names as [|n names IH]; intros cs; simpl.
  - induction cs as [|e cs IHcs]; simpl; [done|].
    rewrite orb_true_r. by rewrite <- IHcs.
  - rewrite IH. clear IH.
    destruct (String.eqb_spec n CACHE_NAME) as [->|Hn]; simpl.
    + apply filter_ext. intros [m c]. simpl.
      by destruct (String.eqb m CACHE_NAME).
    + unfold caches_delete. induction cs as [|[m c] cs IHcs]; simpl; [done|].
      destruct (String.eqb_spec m n) as [->|Hm]; simpl.
      * destruct (String.eqb_spec n CACHE_NAME); [done|]. simpl. apply IHcs.
      * rewrite IHcs. reflexivity.
Qed.

Lemma activate_caches (s : sw_state) :
  caches (activate s)
  = List.filter (fun entry => String.eqb entry.1 CACHE_NAME) (caches s).
Proof.
  unfold activate. cbn [caches]. rewrite activate_filter.
  apply filter_ext_in. intros [m c] Hin. simpl.
  destruct (String.eqb m CACHE_NAME); [done|]. simpl.
  apply negb_false_iff, existsb_exists. exists m. split; [|apply String.eqb_refl].
  unfold caches_keys. apply in_map_iff. by exists (m, c).
Qed.

End CacheLemmas.

Section LifecycleProperties.
Import ServiceWorker Lifecycle.

(** X19. Once a cache holds a response for a URL, the worker never replaces
    or drops it: after any sequence of requests, under any network, the URL
    still matches that response, and a request for it that is not an API
    call is answered with it without the network being asked. *)
Theorem cached_response_never_refreshed root history (s : sw_state) u r :
  caches_match (caches s) u = Some r ->
  let s' := serve_all root history s in
  caches_match (caches s') u = Some r
  /\ (includes "/api/" u = false ->
      forall network mode, serve network root (Request u mode) s' = (Some r, s')).
Proof.
  intros Hu s'.
  assert (Hu' : caches_match (caches s') u = Some r) by by apply serve_all_keeps_match.
  split; [exact Hu'|].
  intros Hapi network mode.
  unfold serve. rewrite dispatch_is_routing. unfold routing_listener. cbn [url].
  by rewrite Hapi, Hu'.
Qed.

Lemma cached_response_witness :
  caches_match
    (caches (serve_all app_root [(online, history_page); (offline, health)] installed))
    app_root = Some root_document
  /\ serve online app_root (Request app_root Navigate)
       (serve_all app_root [(online, history_page); (offline, health)] installed)
     = (Some root_document,
        serve_all app_root [(online, history_page); (offline, health)] installed).
Proof.
  destruct (cached_response_never_refreshed app_root
              [(online, history_page); (offline, health)] installed
              app_root root_document) as [Hkept Hserved]; [reflexivity|].
  split; [exact Hkept|]. apply Hserved. reflexivity.
Defined.

(** X20. The worker never stores the response of an API call: when no cache
    holds one, none does after any sequence of requests, and an API request
    is answered with what the network gives at that time, a network error
    when it is down. *)
Theorem api_responses_never_cached root history (s : sw_state) :
  api_free (caches s) ->
  let s' := serve_all root history s in
  api_free (caches s')
  /\ (forall network req, includes "/api/" (url req) = true ->
        (serve network root req s').1 = network (url req)
        /\ caches (serve network root req s').2 = caches s').
Proof.
  intros Hfree s'.
  assert (Hfree' : api_free (caches s')) by by apply serve_all_keeps_api_free.
  split; [exact Hfree'|].
  intros network req Hreq.
  unfold serve. rewrite dispatch_is_routing. unfold routing_listener, fetch.
  rewrite Hreq. destruct (network (url req)); [done|].
  cbn [fst snd caches]. by rewrite Hfree'.
Qed.

Lemma installed_api_free : api_free (caches installed).
Proof.
  intros u Hu. unfold installed. cbn [caches caches_match].
  rewrite lookup_singleton_ne; [done|]. intros <-. by vm_compute in Hu.
Defined.

Lemma api_responses_witness :
  (serve offline app_root health
     (serve_all app_root [(fun _ => Some health_response, health)] installed)).1 = None.
Proof.
  destruct (api_responses_never_cached app_root [(fun _ => Some health_response, health)]
              installed installed_api_free) as [_ Hserved].
  apply (Hserved offline health). reflexivity.
Defined.

(** X21. Activation leaves the caches named [CACHE_NAME] and deletes every
    other one: afterwards a URL matches what the current cache holds for it,
    whatever the older caches held. *)
Theorem activate_keeps_only_current_cache (s : sw_state) :
  NoDup (caches_keys (caches s)) ->
  Forall (fun entry => entry.1 = CACHE_NAME) (caches (activate s))
  /\ fetched (activate s) = fetched s
  /\ forall u, caches_match (caches (activate s)) u
               = caches_open CACHE_NAME (caches s) !! u.
Proof.
  intros Hdup. rewrite activate_caches. split; [|split; [reflexivity|]].
  - apply Forall_forall. intros [n c] Hin.
    apply list_elem_of_In, filter_In in Hin as [_ Hn]. by apply String.eqb_eq in Hn.
  - intros u. destruct s as [cs fs]. cbn [caches] in *.
    induction cs as [|[n c] cs IH]; simpl; [done|].
    apply NoDup_cons in Hdup as [Hn Hdup].
    destruct (String.eqb_spec n CACHE_NAME) as [->|Hne]; simpl; [|by apply IH].
    destruct (c !! u) eqn:Hc; [done|].
    assert (Hrest : List.filter (fun entry => String.eqb entry.1 CACHE_NAME) cs = []).
    { clear IH Hdup. induction cs as [|[m d] cs IHcs]; simpl; [done|].
      destruct (String.eqb_spec m CACHE_NAME) as [->|Hm].
      - exfalso. apply Hn. simpl. left.
      - apply IHcs. intros Hin. apply Hn. simpl. by right. }
    by rewrite Hrest.
Qed.

Lemma activate_witness :
  caches (activate upgraded) = [(CACHE_NAME, {[url style_sheet := style_response]})]
  /\ caches_match (caches upgraded) app_root = Some root_document
  /\ caches_match (caches (activate upgraded)) app_root = None.
Proof.
  destruct (activate_keeps_only_current_cache upgraded) as (_ & _ & Hmatch).
  - apply (bool_decide_unpack _). vm_compute. reflexivity.
  - split; [reflexivity|]. split; [reflexivity|]. rewrite Hmatch. reflexivity.
Defined.

(** ** Installation *)

Lemma foldl_put_open name (entries : list (string * response)) (cs : cache_storage) u r :
  (u, r) ∈ entries ->
  (forall r', (u, r') ∈ entries -> r' = r) ->
  caches_open name
    (foldl (fun caches entry => caches_put name entry.1 entry.2 caches) cs entries) !! u
  = Some r.
Proof.
  induction entries as [|[u' r'] entries IH] using rev_ind; [by intros ?%elem_of_nil|].
  intros Hin Hfun. rewrite foldl_app. cbn [foldl fst snd].
  destruct (decide (u = u')) as [<-|Hne].
  - rewrite (Hfun r') by (apply elem_of_app; right; apply list_elem_of_singleton; done).
    apply caches_open_put.
  - rewrite caches_open_put_other by done.
    apply IH.
    + apply elem_of_app in Hin as [Hin|Hin]; [done|].
      apply list_elem_of_singleton in Hin. congruence.
    + intros r'' Hin'. apply Hfun. apply elem_of_app. by left.
Qed.

Lemma mapM_fetched_entry network (urls : list string) entries :
  mapM (fetched_entry network) urls = Some entries ->
  forall u, u ∈ urls ->
    exists r, network u = Some r /\ ok r = true /\ status r <> 206
              /\ (u, r) ∈ entries
              /\ forall r', (u, r') ∈ entries -> r' = r.
Proof.
  intros Hm. apply mapM_Some in Hm.
  assert (Hall : forall e, e ∈ entries -> network e.1 = Some e.2
                                          /\ ok e.2 = true /\ status e.2 <> 206).
  { clear -Hm. induction Hm as [|u e urls entries Hu _ IH]; [by intros ? ?%elem_of_nil|].
    intros e' [->|Hin]%elem_of_cons; [|by apply IH].
    unfold fetched_entry in Hu. destruct (network u) as [r|] eqn:Hnet; [|done].
    destruct (ok r) eqn:Hok; [|done].
    destruct (Z.eqb_spec (status r) 206); [done|].
    simpl in Hu. by injection Hu as <-. }
  intros u Hu.
  assert (Hex : exists e, e ∈ entries /\ fetched_entry network u = Some e).
  { clear -Hm Hu. induction Hm as [|u' e urls entries Hu' _ IH]; [by apply elem_of_nil in Hu|].
    apply elem_of_cons in Hu as [->|Hu].
    - exists e. split; [left|done].
    - destruct (IH Hu) as (e' & ? & ?). exists e'. split; [by right|done]. }
  destruct Hex as ([u' r] & Hin & Hf).
  assert (u' = u) as ->.
  { unfold fetched_entry in Hf. destruct (network u) as [r0|]; [|done].
    destruct (ok r0 && negb (status r0 =? 206)); [|done]. by injection Hf. }
  destruct (Hall _ Hin) as (Hnet & Hok & H206). simpl in *.
  exists r. repeat split; try done.
  intros r' Hin'. destruct (Hall _ Hin') as (Hnet' & _). simpl in Hnet'. congruence.
Qed.

Lemma caches_open_match name (cs : cache_storage) u r :
  caches_open name cs !! u = Some r -> exists r', caches_match cs u = Some r'.
Proof.
  induction cs as [|[n c] cs IH]; simpl; [done|].
  destruct (c !! u) eqn:Hc; [by eauto|].
  destruct (String.eqb n name); [congruence | exact IH].
Qed.

(** What a successful installation stored. *)
Lemma install_stores network origin (s : sw_state) u :
  (install network origin s).1 = true ->
  u ∈ urlsToCache ->
  exists r, network (resolve origin u) = Some r /\ ok r = true
            /\ caches_open CACHE_NAME (caches (install network origin s).2)
                  !! resolve origin u = Some r.
Proof.
  unfold install, addAll. cbn [caches fetched].
  destruct (mapM (fetched_entry network) (List.map (resolve origin) urlsToCache))
    as [entries|] eqn:Hm; cbn [fst snd caches fetched]; [|done].
  intros _ Hu.
  destruct (mapM_fetched_entry network _ _ Hm (resolve origin u))
    as (r & Hnet & Hok & _ & Hin & Hfun).
  { apply list_elem_of_In, in_map, list_elem_of_In, Hu. }
  exists r. split; [done|]. split; [done|]. by apply foldl_put_open.
Qed.

(** X22. Installation is all or nothing. It requests every URL of
    [urlsToCache]; when one of them cannot be fetched with an OK status the
    installation fails and no URL matches anything it did not match before;
    when all can, the installation succeeds and the current cache holds for
    each of them the response the network gave. *)
Theorem install_all_or_nothing network origin (s : sw_state) :
  let s' := (install network origin s).2 in
  fetched s' = (fetched s ++ List.map (resolve origin) urlsToCache)%list
  /\ ((install network origin s).1 = false ->
      (exists u, u ∈ urlsToCache /\ fetched_entry network (resolve origin u) = None)
      /\ forall u, caches_match (caches s') u = caches_match (caches s) u)
  /\ ((install network origin s).1 = true ->
      forall u, u ∈ urlsToCache ->
        exists r, network (resolve origin u) = Some r /\ ok r = true
                  /\ caches_open CACHE_NAME (caches s') !! resolve origin u = Some r).
Proof.
  intros s'. split; [|split].
  - unfold s', install, addAll. cbn [caches fetched].
    by destruct (mapM _ _).
  - unfold s', install, addAll. cbn [caches fetched].
    destruct (mapM (fetched_entry network) (List.map (resolve origin) urlsToCache))
      as [entries|] eqn:Hm; cbn [fst snd caches fetched]; [done|].
    intros _. split.
    + apply mapM_None in Hm. apply Exists_exists in Hm as (u' & Hin & Hnone).
      apply list_elem_of_In, in_map_iff in Hin as (u & <- & Hin).
      exists u. split; [by apply list_elem_of_In | exact Hnone].
    + intros u. apply caches_match_create.
  - intros Hok u Hu. by apply install_stores.
Qed.

(** The installation with the font host down fails and stores nothing; with
    every host up it stores the root document. *)
Example install_fonts_down :
  (install fonts_down app_origin fresh).1 = false
  /\ caches (install fonts_down app_origin fresh).2 = [(CACHE_NAME, ∅)].
Proof. split; vm_compute; reflexivity. Qed.

(** X23. After a successful installation every URL of [urlsToCache] that is
    not an API URL is answered from the caches, whatever the mode of the
    request and whatever the network does then, without the network being
    asked. *)
Theorem installed_urls_served_without_network network origin (s : sw_state) u :
  (install network origin s).1 = true ->
  u ∈ urlsToCache ->
  includes "/api/" (resolve origin u) = false ->
  let s' := (install network origin s).2 in
  forall network' root mode,
    exists r, serve network' root (Request (resolve origin u) mode) s' = (Some r, s').
Proof.
  intros Hok Hu Hapi s' network' root mode.
  destruct (install_stores network origin s u Hok Hu) as (r & _ & _ & Hopen).
  apply caches_open_match in Hopen as [r' Hmatch].
  exists r'. unfold serve. rewrite dispatch_is_routing. unfold routing_listener.
  cbn [url]. fold s' in Hmatch. by rewrite Hapi, Hmatch.
Qed.

Lemma installed_urls_witness :
  exists r,
    serve offline app_root (Request app_root Navigate) (install online app_origin fresh).2
    = (Some r, (install online app_origin fresh).2).
Proof.
  apply (installed_urls_served_without_network online app_origin fresh "/").
  - vm_compute. reflexivity.
  - apply list_elem_of_In. vm_compute. left. reflexivity.
  - vm_compute. reflexivity.
Defined.



End LifecycleProperties.

(** * Properties of the start of the page *)

Section StartupProperties.
Import Workflow Startup.

Lemma filter_complement {A} (f : A -> bool) (l : list A) :
  List.filter f (List.filter (fun c => negb (f c)) l) = [].
Proof.
  induction l as [|c l IH]; [done|]. cbn [List.filter].
  destruct (f c) eqn:Hc; cbn [negb List.filter]; [done|]. by rewrite Hc.
Qed.

Lemma filter_twice {A} (f : A -> bool) (l : list A) :
  List.filter f (List.filter f l) = List.filter f l.
Proof.
  induction l as [|c l IH]; [done|]. cbn [List.filter].
  destruct (f c) eqn:Hc; cbn [List.filter]; [|done]. by rewrite Hc, IH.
Qed.

Lemma classList_remove_status (l : list string) :
  List.filter is_status_class (classList_remove status_classes l) = [].
Proof. apply (filter_complement is_status_class). Qed.

Lemma classList_remove_other (l : list string) :
  List.filter (fun c => negb (is_status_class c)) (classList_remove status_classes l)
  = List.filter (fun c => negb (is_status_class c)) l.
Proof. apply (filter_twice (fun c => negb (is_status_class c))). Qed.

Lemma classList_add_absent token (l : list string) :
  existsb (String.eqb token) l = false -> classList_add token l = (l ++ [token])%list.
Proof. unfold classList_add. by intros ->. Qed.

Lemma removed_has_no_status token (l : list string) :
  is_status_class token = true ->
  existsb (String.eqb token) (classList_remove status_classes l) = false.
Proof.
  intros Ht. apply not_true_is_false. intros Hex.
  apply existsb_exists in Hex as (c & Hin & Heq).
  apply String.eqb_eq in Heq as <-.
  unfold classList_remove in Hin. apply filter_In in Hin as [_ Hc].
  unfold is_status_class in Ht. by rewrite Ht in Hc.
Qed.

(** X25. [updateDatabaseStatus] keeps the status classes exclusive: after a
    call with one of the four statuses the indicator carries that status
    class and no other one, is displayed, and shows the message (or the
    default text of the status when the message is empty); after a call
    with any other status it carries none and is hidden. The other classes
    stay; without one of the two elements nothing changes. *)
Theorem status_classes_are_exclusive (status : string) (message : text) (d : dom) :
  match dbStatusIndicator d, dbStatusText d with
  | Some before, Some text_before =>
      exists after text_after,
        updateDatabaseStatus status message d = Dom (Some after) (Some text_after)
        /\ List.filter is_status_class (classList after)
           = (if is_status_class status then [status] else [])
        /\ List.filter (fun c => negb (is_status_class c)) (classList after)
           = List.filter (fun c => negb (is_status_class c)) (classList before)
        /\ display after = (if is_status_class status then "flex" else "none")
        /\ (if is_status_class status then text_after <> []
                                           /\ (message <> [] -> text_after = message)
            else text_after = text_before)
  | _, _ => updateDatabaseStatus status message d = d
  end.
Proof.
  destruct d as [[[l disp]|] [txt|]]; try reflexivity.
  cbn [dbStatusIndicator dbStatusText]. unfold updateDatabaseStatus.
  cbn [dbStatusIndicator dbStatusText classList].
  fold status_classes.
  assert (Hmsg : forall fallback, fallback <> [] ->
            or_text message fallback <> []
            /\ (message <> [] -> or_text message fallback = message)).
  { intros fallback Hf. by destruct message. }
  destruct (String.eqb_spec status "connected") as [->|H1];
    [|destruct (String.eqb_spec status "error") as [->|H2];
      [|destruct (String.eqb_spec status "disabled") as [->|H3];
        [|destruct (String.eqb_spec status "connecting") as [->|H4]]]].
  1-4: eexists _, _; split; [reflexivity|];
    rewrite classList_add_absent by (by apply removed_has_no_status);
    cbn [classList display];
    rewrite !List.filter_app, classList_remove_status, classList_remove_other;
    repeat match goal with
      | |- context [is_status_class ?c] =>
          change (is_status_class c) with true
      | |- context [List.filter ?f [?c]] =>
          let r := eval vm_compute in (List.filter f [c]) in
          change (List.filter f [c]) with r
      end;
    rewrite app_nil_r; repeat split; try reflexivity; by apply Hmsg.
  assert (Hs : is_status_class status = false).
  { unfold is_status_class, status_classes. cbn [existsb].
    by rewrite !(proj2 (String.eqb_neq _ _)). }
  rewrite Hs. eexists _, _. split; [reflexivity|]. cbn [classList display].
  by rewrite classList_remove_status, classList_remove_other.
Qed.

(** ** initSupabase *)

Lemma set_status_shown status message (p : page) :
  shown_status (document (set_status status message p))
  = match dbStatusIndicator (document p), dbStatusText (document p) with
    | Some _, Some _ => if is_status_class status then [status] else []
    | _, _ => shown_status (document p)
    end.
Proof.
  pose proof (status_classes_are_exclusive status message (document p)) as H.
  unfold set_status, shown_status. cbn [document].
  destruct (dbStatusIndicator (document p)) as [before|] eqn:Hi;
    destruct (dbStatusText (document p)) as [txt|] eqn:Ht.
  - destruct H as (after & txt' & -> & Hcls & _). exact Hcls.
  - by rewrite H, Hi.
  - by rewrite H, Hi.
  - by rewrite H, Hi.
Qed.

Lemma show_indicator_globals (p : page) : globals (show_indicator p) = globals p.
Proof. unfold show_indicator. by destruct (dbStatusIndicator (document p)). Qed.

Ltac init_cases S p :=
  destruct S as [lib load url key enabled create test];
  destruct p as [[initialized client ? ? ? ? ? ? ? ?] d];
  cbv beta iota zeta delta
    [initSupabase window_supabase loadSupabaseLibrary supabaseUrl supabaseKey
     databaseEnabled createClient connection_test];
  repeat (split_path; cbn [negb orb]).

(** X26. [initSupabase] resolves to [true] exactly when it leaves
    [supabaseInitialized] set, and then the client is set as well, database
    features are enabled in the configuration, neither credential is a
    placeholder, and the connection test was answered without error. It
    changes the two flags of the client only; the indicator, when the page
    has it, carries the class [connected] exactly in that case. *)
Theorem initSupabase_enables_only_a_tested_client (S : setting) (p : page) :
  supabaseInitialized (globals p) = false ->
  let r := initSupabase S p in
  supabaseInitialized (globals r.2) = r.1
  /\ same_data (globals p) (globals r.2)
  /\ (r.1 = true ->
      supabaseClient (globals r.2) = true
      /\ truthy (databaseEnabled S) = true
      /\ placeholder (supabaseUrl S) (supabaseKey S) = Some false
      /\ connection_test S = Succeeded tt)
  /\ (is_Some (dbStatusIndicator (document p)) -> is_Some (dbStatusText (document p)) ->
      ("connected" ∈ shown_status (document r.2) <-> r.1 = true)).
Proof.
  intros Hfresh r.
  assert (Hstatus : forall b status message q,
            is_status_class status = true ->
            (status = "connected" <-> b = true) ->
            document q = document p \/ document q = document (set_supabaseClient true p) ->
            is_Some (dbStatusIndicator (document p)) ->
            is_Some (dbStatusText (document p)) ->
            "connected" ∈ shown_status (document (set_status status message q)) <-> b = true).
  { intros b status message q Hknown Hb Hq [i Hi] [t Ht].
    rewrite set_status_shown.
    assert (Hd : document q = document p) by (by destruct Hq as [->| ->]).
    rewrite Hd, Hi, Ht, Hknown. rewrite list_elem_of_singleton. split; [|by intros ?%Hb].
    intros H. by apply Hb. }
  subst r. init_cases S p; simpl in Hfresh; subst initialized;
    cbn [fst snd]; rewrite ?show_indicator_globals;
    cbn [fst snd globals set_status set_supabaseClient set_supabaseInitialized
         supabaseInitialized supabaseClient];
    (split; [reflexivity|]); (split; [by repeat split|]);
    (split;
      [try discriminate; intros _;
       repeat match goal with u : unit |- _ => destruct u end;
       repeat split; try reflexivity; try assumption; by apply negb_false_iff|]).
  all: intros Hi Ht.
  all: try (apply (Hstatus false); [reflexivity | split; discriminate | by auto | done | done]).
  all: unfold show_indicator;
    destruct Hi as [i Hi], Ht as [t Ht]; cbn [document set_status];
    pose proof (status_classes_are_exclusive "connected" (lit "Database ready") d) as H;
    cbn [document set_supabaseClient set_supabaseInitialized globals] in *;
    rewrite Hi, Ht in H; destruct H as (after & txt' & -> & Hcls & _);
    cbn [dbStatusIndicator dbStatusText document]; unfold shown_status;
    cbn [dbStatusIndicator classList document]; rewrite Hcls;
    (split; [done|]); intros _; apply list_elem_of_singleton; reflexivity.
Qed.

Lemma initSupabase_witness :
  supabaseInitialized (globals loaded_page) = false
  /\ (initSupabase (configured (Succeeded tt)) loaded_page).1 = true
  /\ (initSupabase (configured (Failed (lit "relation does not exist"))) loaded_page).1 = false
  /\ supabaseClient
       (globals (initSupabase (configured (Failed (lit "relation does not exist")))
                   loaded_page).2) = true
  /\ supabaseInitialized
       (globals (initSupabase (configured (Failed (lit "relation does not exist")))
                   loaded_page).2) = false
  /\ (initSupabase sample_env loaded_page).1 = false.
Proof.
  split; [reflexivity|]. split; [reflexivity|]. split; [reflexivity|].
  split; [reflexivity|]. split; [|reflexivity].
  destruct (initSupabase_enables_only_a_tested_client
              (configured (Failed (lit "relation does not exist"))) loaded_page)
    as (Hflag & _); [reflexivity|].
  exact Hflag.
Defined.

(** X27. When [initSupabase] resolves to [false] on a page where the client
    was not initialised, the analyses run without persistence: [uploadFile]
    and [analyzeText] make no call to the remote store and leave it as it
    was. *)
Theorem failed_initialisation_means_no_store_call (S : setting) (E : env) (p : page) :
  supabaseInitialized (globals p) = false ->
  (initSupabase S p).1 = false ->
  let w := globals (initSupabase S p).2 in
  Forall (fun e => is_store_call e = false) (effects (uploadFile E) w)
  /\ remote (after (uploadFile E) w) = remote (globals p)
  /\ Forall (fun e => is_store_call e = false) (effects (analyzeText E) w)
  /\ remote (after (analyzeText E) w) = remote (globals p).
Proof.
  intros Hfresh Hfalse w.
  assert (Hoff : supabaseInitialized w = false /\ remote w = remote (globals p)).
  { subst w. revert Hfalse. init_cases S p; simpl in Hfresh; subst initialized;
      cbn [fst]; try discriminate; intros _; by split. }
  destruct Hoff as [Hoff Hremote].
  destruct (uploadFile_paths E w) as (_ & _ & _ & Hu & _).
  destruct (analyzeText_paths E w) as (_ & _ & _ & Ht & _).
  rewrite Hoff in Hu, Ht. destruct Hu as [Hu1 Hu2], Ht as [Ht1 Ht2].
  rewrite <- Hremote. by repeat split.
Qed.

Lemma failed_initialisation_witness :
  let w := globals (initSupabase sample_env loaded_page).2 in
  Forall (fun e => is_store_call e = false) (effects (uploadFile all_ok) w)
  /\ remote (after (uploadFile all_ok) w) = remote (globals loaded_page)
  /\ Forall (fun e => is_store_call e = false) (effects (analyzeText all_ok) w)
  /\ remote (after (analyzeText all_ok) w) = remote (globals loaded_page).
Proof.
  apply (failed_initialisation_means_no_store_call sample_env all_ok loaded_page);
    reflexivity.
Defined.

(** ** The theme *)

(** X28. [toggleTheme] switches between [dark] and [light] (anything but
    [dark] counts as light), stores the new theme, and sets the icon to the
    sun exactly for [dark]; loading the page again restores the state it
    left, and two more toggles lead back to it. *)
Theorem theme_toggle_round_trip (s : theme_state) :
  let s1 := toggleTheme s in
  data_theme s1 = Some (if bool_decide (data_theme s = Some (lit "dark"))
                        then lit "light" else lit "dark")
  /\ stored_theme s1 = data_theme s1
  /\ (icon s1 = Some (lit "fas fa-sun") <->
      is_Some (icon s) /\ data_theme s1 = Some (lit "dark"))
  /\ restoreTheme s1 = s1
  /\ toggleTheme (toggleTheme s1) = s1.
Proof.
  destruct s as [theme stored [i|]]; unfold toggleTheme; cbn [data_theme icon];
    destruct (bool_decide (theme = Some (lit "dark"))); vm_compute;
    (split; [reflexivity|]); (split; [reflexivity|]);
    (split; [|split; reflexivity]); split.
  all: intros H;
    first [ discriminate H
          | reflexivity
          | split; [by eexists | reflexivity]
          | destruct H as [H1 H2];
            first [discriminate H2 | destruct H1 as [? H1]; discriminate H1] ].
Qed.

End StartupProperties.

(** * Properties of the selection of a file *)

Section FileHandlingProperties.
Import Workflow FileHandling.

(** X29. After a file was chosen in the file input, or files were dropped on
    a page with a file input, the first of them is the current file and the
    first file of the input, and [uploadFile] sends that file to the API,
    once, unless it is over the size limit; of dropped files the others are
    ignored. *)
Theorem selected_file_is_the_one_analysed (E : env) (w w' : world) f others :
  (fileInput w = Some (f :: others) /\ w' = change w)
  \/ (is_Some (fileInput w) /\ w' = drop (f :: others) w) ->
  currentFile w' = Some f
  /\ (exists rest, fileInput w' = Some (f :: rest))
  /\ List.filter is_api (effects (uploadFile E) w')
     = (if size f >? 10 * 1024 * 1024 then [] else [ApiUpload f]).
Proof.
  intros Hsel.
  assert (Hw' : currentFile w' = Some f /\ exists rest, fileInput w' = Some (f :: rest)).
  { destruct Hsel as [[Hin ->]|[[old Hold] ->]].
    - unfold change. rewrite Hin. cbn. split; [done|]. by exists others.
    - unfold drop. rewrite Hold. cbn. split; [done|]. by exists [].  }
  destruct Hw' as [Hcur [rest Hin]].
  split; [exact Hcur|]. split; [by exists rest|].
  destruct (uploadFile_paths E w') as (_ & _ & Hapi & _).
  unfold selected in Hapi. rewrite Hin in Hapi.
  unfold effects, after. rewrite Hapi. by destruct (size f >? _).
Qed.

Lemma selected_file_witness :
  (currentFile (drop [pdf; scan] page_no_file) = Some pdf
   /\ (exists rest, fileInput (drop [pdf; scan] page_no_file) = Some (pdf :: rest))
   /\ List.filter is_api (effects (uploadFile all_ok) (drop [pdf; scan] page_no_file))
      = [ApiUpload pdf])
  /\ (currentFile (change (page_with scan [])) = Some scan
      /\ (exists rest, fileInput (change (page_with scan [])) = Some (scan :: rest))
      /\ List.filter is_api (effects (uploadFile all_ok) (change (page_with scan []))) = []).
Proof.
  split.
  - apply (selected_file_is_the_one_analysed all_ok page_no_file _ pdf [scan]).
    right. split; [by eexists | reflexivity].
  - apply (selected_file_is_the_one_analysed all_ok (page_with scan []) _ scan []).
    left. split; reflexivity.
Defined.

(** X30. After [clearFile] there is no file to analyse: [uploadFile] only
    asks for one, whatever was selected before. *)
Theorem cleared_file_is_not_analysed (E : env) (w : world) :
  let w' := (clearFile w).2 in
  currentFile w' = None
  /\ effects (uploadFile E) w'
     = [ShowToast (VStr (lit "Please select a file first")) Error].
Proof.
  destruct w as [? ? ? ? input ? ? ? ? ?].
  split; [reflexivity|].
  unfold effects, after, invoke, uploadFile. by destruct input.
Qed.

End FileHandlingProperties.
